(** * A shallow embedding of [run.py]: signal parsing, risk calculation and
    the conversation flow of the trading bot.

    Conventions of the embedding.
    - Python [str] is [string]; the text is taken to be ASCII (case mapping
      and white space are those of the ASCII range).
    - Python [float] is [pyfloat]: an exact rational, or one of the special
      values inf, -inf, nan.  Finite arithmetic is exact: binary rounding,
      overflow to inf and the sign of zero are outside the model.
    - Python exceptions are the type [exn]; a computation that can raise
      returns [Result].
    - The trade [dict] is a mutable object shared between the conversation
      state and [ConnectMetaTrader]; objects live in a heap and are passed
      by reference. *)

From Stdlib Require Import ZArith QArith Qround Qabs String Ascii List Lia Lqa Psatz Bool.
From Stdlib Require Import DecimalString.
From stdpp Require Import base list.
Import ListNotations.
Open Scope string_scope.

(** ** Exceptions and results *)

Inductive exn : Type :=
| IndexError          (* list index out of range *)
| ValueError          (* float() of a bad literal, str.index miss, round(nan) *)
| TypeError           (* float - str, int(None) *)
| ZeroDivisionError
| OverflowError       (* round(inf), math.floor(inf) *)
| NameError           (* a local read before assignment *)
| KeyError            (* a dictionary key that is not there *)
| InvalidTrade        (* Exception('Invalid Trade') *)
| GatewayError (msg : string).  (* raised by a MetaApi call *)

Inductive Result (A : Type) : Type :=
| Ok (a : A)
| Raise (e : exn).
Arguments Ok {A} a.
Arguments Raise {A} e.

#[global] Instance result_ret : MRet Result := fun A a => Ok a.

#[global] Instance result_bind : MBind Result := fun A B k r =>
  match r with
  | Ok a => k a
  | Raise e => Raise e
  end.

#[global] Instance result_fmap : FMap Result := fun A B f r =>
  match r with
  | Ok a => Ok (f a)
  | Raise e => Raise e
  end.

Definition of_option {A} (e : exn) (o : option A) : Result A :=
  match o with
  | Some a => Ok a
  | None => Raise e
  end.

(** ** Python string operations *)

Module Str.

(** [str.isspace] on ASCII: tab, LF, VT, FF, CR, FS, GS, RS, US, space. *)
Definition is_space (c : ascii) : bool :=
  let n := nat_of_ascii c in
  (((9 <=? n) && (n <=? 13)) || ((28 <=? n) && (n <=? 32)))%nat.

(** Line boundaries of [str.splitlines] on ASCII, CR apart:
    LF, VT, FF, FS, GS, RS. *)
Definition is_linebreak (c : ascii) : bool :=
  let n := nat_of_ascii c in
  (((10 <=? n) && (n <=? 12)) || ((28 <=? n) && (n <=? 30)))%nat.

Definition is_cr (c : ascii) : bool := (nat_of_ascii c =? 13)%nat.
Definition is_lf (c : ascii) : bool := (nat_of_ascii c =? 10)%nat.

Definition lower_char (c : ascii) : ascii :=
  let n := nat_of_ascii c in
  if ((65 <=? n) && (n <=? 90))%nat then ascii_of_nat (n + 32) else c.

Definition upper_char (c : ascii) : ascii :=
  let n := nat_of_ascii c in
  if ((97 <=? n) && (n <=? 122))%nat then ascii_of_nat (n - 32) else c.

Fixpoint lower (s : string) : string :=
  match s with
  | EmptyString => EmptyString
  | String c s' => String (lower_char c) (lower s')
  end.

Fixpoint upper (s : string) : string :=
  match s with
  | EmptyString => EmptyString
  | String c s' => String (upper_char c) (upper s')
  end.

(** [needle in hay] *)
Fixpoint contains (needle hay : string) : bool :=
  String.prefix needle hay ||
  match hay with
  | EmptyString => false
  | String _ hay' => contains needle hay'
  end.

Definition of_rev (acc : list ascii) : string :=
  string_of_list_ascii (rev acc).

(** [s.splitlines()]: [acc] holds the current line, last character first.
    A line is closed at every boundary; CR LF is one boundary; what follows
    the last boundary is a line only when it is not empty. *)
Fixpoint splitlines_from (acc : list ascii) (s : string) : list string :=
  match s with
  | EmptyString =>
      match acc with
      | [] => []
      | _ => [of_rev acc]
      end
  | String c s' =>
      if is_cr c then
        match s' with
        | String c2 s'' =>
            if is_lf c2 then of_rev acc :: splitlines_from [] s''
            else of_rev acc :: splitlines_from [] s'
        | EmptyString => [of_rev acc]
        end
      else if is_linebreak c then of_rev acc :: splitlines_from [] s'
      else splitlines_from (c :: acc) s'
  end.

Definition splitlines (s : string) : list string := splitlines_from [] s.

Fixpoint drop_spaces (l : list ascii) : list ascii :=
  match l with
  | c :: l' => if is_space c then drop_spaces l' else l
  | [] => []
  end.

(** [s.rstrip()] *)
Definition rstrip (s : string) : string :=
  of_rev (drop_spaces (rev (list_ascii_of_string s))).

(** [s.strip()] *)
Definition strip (s : string) : string :=
  rstrip (string_of_list_ascii (drop_spaces (list_ascii_of_string s))).

(** [s.split()]: the maximal runs of characters that are not white space. *)
Fixpoint split_from (acc : list ascii) (s : string) : list string :=
  match s with
  | EmptyString =>
      match acc with
      | [] => []
      | _ => [of_rev acc]
      end
  | String c s' =>
      if is_space c then
        match acc with
        | [] => split_from [] s'
        | _ => of_rev acc :: split_from [] s'
        end
      else split_from (c :: acc) s'
  end.

Definition split (s : string) : list string := split_from [] s.

(** [l[i]] *)
Definition item {A} (l : list A) (i : nat) : Result A :=
  of_option IndexError (l !! i).

(** [l[-1]] *)
Definition last_item {A} (l : list A) : Result A :=
  of_option IndexError (last l).

(** [(line.split())[-1]] *)
Definition last_token (line : string) : Result string :=
  last_item (split line).

(** Position of the first occurrence of the character [c]. *)
Fixpoint find_char (c : ascii) (s : string) : option nat :=
  match s with
  | EmptyString => None
  | String c' s' =>
      if Ascii.eqb c c' then Some 0%nat
      else option_map S (find_char c s')
  end.

(** [s.index('.')] *)
Definition index_dot (s : string) : Result nat :=
  of_option ValueError (find_char "."%char s).

(** [x in l] for a list of strings *)
Definition mem (x : string) (l : list string) : bool :=
  existsb (String.eqb x) l.

End Str.


(** ** Python floats *)

Inductive pyfloat : Type :=
| Finite (q : Q)
| Inf (negative : bool)
| NaN.

Module Float.
Local Open Scope Q_scope.

Definition of_Z (n : Z) : pyfloat := Finite (inject_Z n).

Definition is_zero (q : Q) : bool := Qeq_bool q 0.
Definition is_neg (q : Q) : bool := negb (Qle_bool 0 q).

(** [x + y] *)
Definition add (x y : pyfloat) : pyfloat :=
  match x, y with
  | NaN, _ | _, NaN => NaN
  | Finite a, Finite b => Finite (Qred (a + b))
  | Inf s, Finite _ | Finite _, Inf s => Inf s
  | Inf s, Inf t => if Bool.eqb s t then Inf s else NaN
  end.

Definition opp (x : pyfloat) : pyfloat :=
  match x with
  | Finite a => Finite (Qred (- a))
  | Inf s => Inf (negb s)
  | NaN => NaN
  end.

(** [x - y] *)
Definition sub (x y : pyfloat) : pyfloat := add x (opp y).

(** [x * y] *)
Definition mul (x y : pyfloat) : pyfloat :=
  match x, y with
  | NaN, _ | _, NaN => NaN
  | Finite a, Finite b => Finite (Qred (a * b))
  | Inf s, Finite b | Finite b, Inf s =>
      if is_zero b then NaN else Inf (xorb s (is_neg b))
  | Inf s, Inf t => Inf (xorb s t)
  end.

(** [x / y]: Python raises on a zero divisor, whatever the dividend. *)
Definition div (x y : pyfloat) : Result pyfloat :=
  match y with
  | Finite b =>
      if is_zero b then Raise ZeroDivisionError
      else match x with
           | Finite a => Ok (Finite (Qred (a / b)))
           | Inf s => Ok (Inf (xorb s (is_neg b)))
           | NaN => Ok NaN
           end
  | Inf t =>
      match x with
      | Finite _ => Ok (Finite 0)
      | _ => Ok NaN
      end
  | NaN => Ok NaN
  end.

(** Nearest integer, ties to the even one. *)
Definition round_half_even (q : Q) : Z :=
  let f := Qfloor q in
  let r := q - inject_Z f in
  match Qcompare r (1 # 2) with
  | Lt => f
  | Gt => (f + 1)%Z
  | Eq => if Z.even f then f else (f + 1)%Z
  end.

(** [round(x)], an int *)
Definition round (x : pyfloat) : Result Z :=
  match x with
  | Finite q => Ok (round_half_even q)
  | Inf _ => Raise OverflowError
  | NaN => Raise ValueError
  end.

(** [round(x, 2)], a float *)
Definition round2 (x : pyfloat) : pyfloat :=
  match x with
  | Finite q => Finite (Qred (inject_Z (round_half_even (q * 100)) / 100))
  | _ => x
  end.

(** [math.floor(x)], an int *)
Definition floor (x : pyfloat) : Result Z :=
  match x with
  | Finite q => Ok (Qfloor q)
  | Inf _ => Raise OverflowError
  | NaN => Raise ValueError
  end.

(** [n / m] on two ints: true division. *)
Definition int_div (n m : Z) : Result pyfloat :=
  div (of_Z n) (of_Z m).

End Float.

(** *** [float(s)]: the literal grammar

    floatvalue ::= [sign] (floatnumber | "inf" | "infinity" | "nan"),
    floatnumber ::= number [exponent],
    number ::= [digitpart] "." digitpart | digitpart ["."],
    exponent ::= ("e" | "E") [sign] digitpart,
    digitpart ::= digit (["_"] digit)*,
    with white space stripped at both ends and the words in any case. *)

Module Literal.

Definition digit_val (c : ascii) : option Z :=
  let n := nat_of_ascii c in
  if ((48 <=? n) && (n <=? 57))%nat then Some (Z.of_nat (n - 48)) else None.

Definition is_underscore (c : ascii) : bool := (nat_of_ascii c =? 95)%nat.

(** After a digit: the rest of a digitpart, and what follows it. *)
Fixpoint digits_rest (s : string) : list Z * string :=
  match s with
  | EmptyString => ([], EmptyString)
  | String c s' =>
      match digit_val c with
      | Some d => let '(ds, r) := digits_rest s' in (d :: ds, r)
      | None =>
          if is_underscore c then
            match s' with
            | String c2 s'' =>
                match digit_val c2 with
                | Some d => let '(ds, r) := digits_rest s'' in (d :: ds, r)
                | None => ([], s)
                end
            | EmptyString => ([], s)
            end
          else ([], s)
      end
  end.

Definition digitpart (s : string) : option (list Z * string) :=
  match s with
  | String c s' =>
      match digit_val c with
      | Some d => let '(ds, r) := digits_rest s' in Some (d :: ds, r)
      | None => None
      end
  | EmptyString => None
  end.

Definition value_of (ds : list Z) : Z :=
  fold_left (fun acc d => (10 * acc + d)%Z) ds 0%Z.

(** An optional sign: [true] for "-". *)
Definition sign (s : string) : bool * string :=
  match s with
  | String "-"%char s' => (true, s')
  | String "+"%char s' => (false, s')
  | _ => (false, s)
  end.

(** [number]: the digits before and after the point, and what follows. *)
Definition number (s : string) : option (list Z * list Z * string) :=
  match digitpart s with
  | Some (ip, r) =>
      match r with
      | String "."%char r' =>
          match digitpart r' with
          | Some (fp, r'') => Some (ip, fp, r'')
          | None => Some (ip, [], r')
          end
      | _ => Some (ip, [], r)
      end
  | None =>
      match s with
      | String "."%char r' =>
          match digitpart r' with
          | Some (fp, r'') => Some ([], fp, r'')
          | None => None
          end
      | _ => None
      end
  end.

(** [exponent], when the text starts with "e" or "E"; [Some 0] on the
    empty text; [None] on anything else. *)
Definition exponent (s : string) : option Z :=
  match s with
  | EmptyString => Some 0%Z
  | String c s' =>
      if Ascii.eqb (Str.lower_char c) "e"%char then
        let '(neg, s'') := sign s' in
        match digitpart s'' with
        | Some (ds, EmptyString) =>
            Some (if neg then (- value_of ds)%Z else value_of ds)
        | _ => None
        end
      else None
  end.

Definition pow10 (e : Z) : Q :=
  if (0 <=? e)%Z then inject_Z (10 ^ e) else (1 / inject_Z (10 ^ (- e)))%Q.

Definition floatnumber (s : string) : option Q :=
  match number s with
  | Some (ip, fp, r) =>
      match exponent r with
      | Some e =>
          let m := value_of (ip ++ fp) in
          Some (Qred (inject_Z m * pow10 (e - Z.of_nat (length fp)))%Q)
      | None => None
      end
  | None => None
  end.

Definition absfloatvalue (s : string) : option pyfloat :=
  let w := Str.lower s in
  if String.eqb w "inf" || String.eqb w "infinity" then Some (Inf false)
  else if String.eqb w "nan" then Some NaN
  else option_map Finite (floatnumber s).

Definition floatvalue (s : string) : option pyfloat :=
  let '(neg, s') := sign (Str.strip s) in
  match absfloatvalue s' with
  | Some x => Some (if neg then Float.opp x else x)
  | None => None
  end.

End Literal.

(** [float(s)] on a string *)
Definition float_of_str (s : string) : Result pyfloat :=
  of_option ValueError (Literal.floatvalue s).

(** *** [str(x)] on a float

    The shortest-digits text of [repr]: at most 17 significant digits,
    trailing zeros dropped; fixed notation when the decimal point position
    [decpt] satisfies [-4 < decpt <= 16], exponent notation otherwise. *)

Module Repr.

(** The decimal digits of a natural number, as text. *)
Definition digits (n : Z) : string :=
  NilZero.string_of_uint (N.to_uint (Z.to_N n)).

Fixpoint zeros (n : nat) : string :=
  match n with
  | O => EmptyString
  | S n' => String "0"%char (zeros n')
  end.

Fixpoint drop_zeros (l : list ascii) : list ascii :=
  match l with
  | c :: l' => if Ascii.eqb c "0"%char then drop_zeros l' else l
  | [] => []
  end.

(** Trailing zeros dropped. *)
Definition strip_zeros (s : string) : string :=
  Str.of_rev (drop_zeros (rev (list_ascii_of_string s))).

(** The decimal exponent [e] of a positive rational: [10^e <= a < 10^(e+1)]. *)
Definition exponent10 (a : Q) : Z :=
  let k := Z.of_nat (String.length (digits (Qnum a))) in
  let j := Z.of_nat (String.length (digits (Zpos (Qden a)))) in
  if Qle_bool (Literal.pow10 (k - j)) a then (k - j)%Z else (k - j - 1)%Z.

(** The 17 significant digits of a positive rational, rounded, with the
    decimal point position: [a ~ 0.d1d2...d17 * 10^decpt]. *)
Definition sig17 (a : Q) : string * Z :=
  let e := exponent10 a in
  let m := Float.round_half_even (a * Literal.pow10 (16 - e))%Q in
  if (m =? 10 ^ 17)%Z then (digits (10 ^ 16), (e + 2)%Z)
  else (digits m, (e + 1)%Z).

Definition fixed (ds : string) (decpt : Z) : string :=
  let n := Z.of_nat (String.length ds) in
  if (decpt <=? 0)%Z then "0." ++ zeros (Z.to_nat (- decpt)) ++ ds
  else if (decpt <? n)%Z then
    substring 0 (Z.to_nat decpt) ds ++ "."
      ++ substring (Z.to_nat decpt) (Z.to_nat (n - decpt)) ds
  else ds ++ zeros (Z.to_nat (decpt - n)) ++ ".0".

Definition scientific (ds : string) (decpt : Z) : string :=
  let e := (decpt - 1)%Z in
  let es := digits (Z.abs e) in
  let es := if (String.length es <? 2)%nat then "0" ++ es else es in
  match ds with
  | String d EmptyString => String d EmptyString
  | String d rest => String d ("." ++ rest)
  | EmptyString => EmptyString
  end ++ "e" ++ (if (e <? 0)%Z then "-" else "+") ++ es.

Definition positive (a : Q) : string :=
  let '(ds17, decpt) := sig17 a in
  let ds := strip_zeros ds17 in
  if ((-4 <? decpt) && (decpt <=? 16))%Z then fixed ds decpt
  else scientific ds decpt.

Definition float (x : pyfloat) : string :=
  match x with
  | Finite q =>
      if Float.is_zero q then "0.0"
      else if Float.is_neg q then "-" ++ positive (Qabs q)
      else positive q
  | Inf false => "inf"
  | Inf true => "-inf"
  | NaN => "nan"
  end.

End Repr.

(** [int(s)] on a string: an optional sign and a digitpart, white space
    stripped at both ends. *)
Definition int_of_str (s : string) : Result Z :=
  let '(neg, s') := Literal.sign (Str.strip s) in
  match Literal.digitpart s' with
  | Some (ds, EmptyString) =>
      Ok (if neg then (- Literal.value_of ds)%Z else Literal.value_of ds)
  | _ => Raise ValueError
  end.

(** ** The trade dictionary *)

(** The six values of [trade['OrderType']]. *)
Inductive order_type : Type :=
| Buy | Sell | BuyLimit | SellLimit | BuyStop | SellStop.

Definition order_type_name (ot : order_type) : string :=
  match ot with
  | Buy => "Buy"
  | Sell => "Sell"
  | BuyLimit => "Buy Limit"
  | SellLimit => "Sell Limit"
  | BuyStop => "Buy Stop"
  | SellStop => "Sell Stop"
  end.

(** [trade['OrderType'] == 'Buy' or trade['OrderType'] == 'Sell'] *)
Definition is_market (ot : order_type) : bool :=
  match ot with
  | Buy | Sell => true
  | _ => false
  end.

(** What [trade['Entry']] can hold: the token as text, or a float. *)
Inductive value : Type :=
| VStr (s : string)
| VFloat (x : pyfloat).

(** [str(v)] *)
Definition py_str (v : value) : string :=
  match v with
  | VStr s => s
  | VFloat x => Repr.float x
  end.

(** [v == 'NOW'] *)
Definition is_NOW (v : value) : bool :=
  match v with
  | VStr s => String.eqb s "NOW"
  | VFloat _ => false
  end.

(** The keys of the dictionary; ['PositionSize'] is absent until
    [GetTradeInformation] assigns it. *)
Record Trade : Type := mkTrade {
  OrderType : order_type;
  Symbol : string;
  Entry : value;
  StopLoss : pyfloat;
  TP : list pyfloat;
  RiskFactor : pyfloat;
  PositionSize : option pyfloat
}.

Definition set_Entry (v : value) (t : Trade) : Trade :=
  mkTrade (OrderType t) (Symbol t) v (StopLoss t) (TP t) (RiskFactor t)
          (PositionSize t).

Definition set_PositionSize (x : pyfloat) (t : Trade) : Trade :=
  mkTrade (OrderType t) (Symbol t) (Entry t) (StopLoss t) (TP t)
          (RiskFactor t) (Some x).

(** The environment the module reads when it is loaded. *)
Record Config : Type := mkConfig {
  RISK_FACTOR : pyfloat;                       (* float(os.environ.get("RISK_FACTOR")) *)
  ALLOWED_MT4_ACCOUNT_NUMBER : option string;  (* os.environ.get("4835673") *)
  TELEGRAM_USER : option string                (* os.environ.get("TELEGRAM_USER") *)
}.

Definition SYMBOLS : list string :=
  ["AUDCAD"; "AUDCHF"; "AUDJPY"; "AUDNZD"; "AUDUSD"; "CADCHF"; "CADJPY";
   "CHFJPY"; "EURAUD"; "EURCAD"; "EURCHF"; "EURGBP"; "EURJPY"; "EURNZD";
   "EURUSD"; "GBPAUD"; "GBPCAD"; "GBPCHF"; "GBPJPY"; "GBPNZD"; "GBPUSD";
   "NOW"; "NZDCAD"; "NZDCHF"; "NZDJPY"; "NZDUSD"; "USDCAD"; "USDCHF";
   "USDJPY"; "XAGUSD"; "XAUUSD"].

(** ** ParseSignal *)

(** ['Buy Limit'.lower() in line.lower()] and its five siblings. *)
Definition mentions (phrase line : string) : bool :=
  Str.contains (Str.lower phrase) (Str.lower line).

(** The [if]/[elif] chain on [signal[0]] (lines 63-76). *)
Definition classify (line0 : string) : option order_type :=
  if mentions "Buy Limit" line0 then Some BuyLimit
  else if mentions "Sell Limit" line0 then Some SellLimit
  else if mentions "Buy Stop" line0 then Some BuyStop
  else if mentions "Sell Stop" line0 then Some SellStop
  else if mentions "Buy" line0 then Some Buy
  else if mentions "Sell" line0 then Some Sell
  else None.

(** [float((signal[i].split())[-1])] *)
Definition float_at (signal : list string) (i : nat) : Result pyfloat :=
  line ← Str.item signal i;
  tok ← Str.last_token line;
  float_of_str tok.

(** [signal.splitlines()], each line [rstrip]ped (lines 58-59). *)
Definition signal_lines (signal : string) : list string :=
  map Str.rstrip (Str.splitlines signal).

(** [ParseSignal(signal)]: [Ok None] is the empty dictionary. *)
Definition ParseSignal (cfg : Config) (signal : string)
  : Result (option Trade) :=
  let signal := signal_lines signal in
  line0 ← Str.item signal 0;
  match classify line0 with
  | None => Ok None
  | Some orderType =>
      tok ← Str.last_token line0;
      let symbol := Str.upper tok in
      if negb (Str.mem symbol SYMBOLS) then Ok None
      else
        entry ← (if is_market orderType
                 then line1 ← Str.item signal 1;
                      tok1 ← Str.last_token line1;
                      Ok (VStr tok1)
                 else x ← float_at signal 1; Ok (VFloat x));
        stopLoss ← float_at signal 2;
        tp1 ← float_at signal 3;
        tp ← (if (4 <? length signal)%nat
              then tp2 ← float_at signal 4; Ok [tp1; tp2]
              else Ok [tp1]);
        Ok (Some (mkTrade orderType symbol entry stopLoss tp
                          (RISK_FACTOR cfg) None))
  end.

(** ** The risk arithmetic of GetTradeInformation and CreateTable *)

(** [trade['PositionSize']] *)
Definition position_size_of (t : Trade) : Result pyfloat :=
  of_option KeyError (PositionSize t).

(** The [if]/[elif] chain on the symbol and the entry (lines 99-106). *)
Definition resolve_multiplier (t : Trade) : Result Q :=
  if String.eqb (Symbol t) "XAUUSD" then Ok (1 # 10)
  else if String.eqb (Symbol t) "XAGUSD" then Ok (1 # 1000)
  else
    i ← Str.index_dot (py_str (Entry t));
    if (2 <=? i)%nat then Ok (1 # 100) else Ok (1 # 10000).

(** [price - trade['Entry']]: a float minus a string is a [TypeError]. *)
Definition minus_entry (price : pyfloat) (entry : value) : Result pyfloat :=
  match entry with
  | VFloat e => Ok (Float.sub price e)
  | VStr _ => Raise TypeError
  end.

(** [abs(round((price - trade['Entry']) / multiplier))] (lines 108, 113). *)
Definition pips (price : pyfloat) (entry : value) (multiplier : Q)
  : Result Z :=
  d ← minus_entry price entry;
  q ← Float.div d (Finite multiplier);
  n ← Float.round q;
  Ok (Z.abs n).

(** [math.floor(((balance * risk) / stopLossPips) / 10 * 100) / 100]
    (line 109). *)
Definition position_size (balance risk : pyfloat) (stopLossPips : Z)
  : Result pyfloat :=
  a ← Float.div (Float.mul balance risk) (Float.of_Z stopLossPips);
  b ← Float.div a (Float.of_Z 10);
  n ← Float.floor (Float.mul b (Float.of_Z 100));
  Float.int_div n 100.

(** The loop of lines 111-113. *)
Fixpoint take_profit_pips (tps : list pyfloat) (entry : value)
  (multiplier : Q) : Result (list Z) :=
  match tps with
  | [] => Ok []
  | takeProfit :: rest =>
      p ← pips takeProfit entry multiplier;
      ps ← take_profit_pips rest entry multiplier;
      Ok (p :: ps)
  end.

(** The rows of the table, as numbers. *)
Record RiskReport : Type := mkReport {
  row_OrderType : order_type;
  row_Symbol : string;
  row_Entry : value;
  row_StopLoss : Z;             (* '{} pips' *)
  row_TP : list Z;              (* 'TP n', pips *)
  row_RiskFactor : pyfloat;     (* trade['RiskFactor'] * 100, a percentage *)
  row_PositionSize : pyfloat;
  row_CurrentBalance : pyfloat;
  row_PotentialLoss : pyfloat;
  row_TPProfit : list pyfloat;  (* 'TP n Profit' *)
  row_TotalProfit : pyfloat
}.

(** [round((positionSize * 10 * (1 / n)) * takeProfit, 2)] (line 141). *)
Definition leg_profit (positionSize : pyfloat) (n : nat) (takeProfit : Z)
  : Result pyfloat :=
  share ← Float.int_div 1 (Z.of_nat n);
  Ok (Float.round2
        (Float.mul
           (Float.mul (Float.mul positionSize (Float.of_Z 10)) share)
           (Float.of_Z takeProfit))).

(** The loop of lines 139-143: the profits and their running total. *)
Fixpoint leg_profits (positionSize : pyfloat) (n : nat) (tps : list Z)
  (totalProfit : pyfloat) : Result (list pyfloat * pyfloat) :=
  match tps with
  | [] => Ok ([], totalProfit)
  | takeProfit :: rest =>
      profit ← leg_profit positionSize n takeProfit;
      '(profits, total) ← leg_profits positionSize n rest
                            (Float.add totalProfit profit);
      Ok (profit :: profits, total)
  end.

(** [CreateTable(trade, balance, stopLossPips, takeProfitPips)] *)
Definition CreateTable (t : Trade) (balance : pyfloat) (stopLossPips : Z)
  (takeProfitPips : list Z) : Result RiskReport :=
  positionSize ← position_size_of t;
  let loss :=
    Float.round2 (Float.mul (Float.mul positionSize (Float.of_Z 10))
                            (Float.of_Z stopLossPips)) in
  '(profits, totalProfit) ←
    leg_profits positionSize (length takeProfitPips) takeProfitPips
                (Float.of_Z 0);
  Ok (mkReport (OrderType t) (Symbol t) (Entry t) stopLossPips
               takeProfitPips
               (Float.mul (RiskFactor t) (Float.of_Z 100))
               positionSize balance loss profits totalProfit).

(** ** The world: heap, conversation state, chat and gateway traffic *)

(** A reference to a trade dictionary. *)
Definition loc : Type := nat.

(** The calls made on the MetaApi account and its RPC connection. *)
Inductive Call : Type :=
| get_account
| deploy
| wait_connected
| connect
| wait_synchronized
| get_account_information
| get_symbol_price (symbol : string)
| create_market_buy_order (symbol : string) (volume stopLoss takeProfit : pyfloat)
| create_limit_buy_order (symbol : string) (volume : pyfloat) (entry : value)
    (stopLoss takeProfit : pyfloat)
| create_stop_buy_order (symbol : string) (volume : pyfloat) (entry : value)
    (stopLoss takeProfit : pyfloat)
| create_market_sell_order (symbol : string) (volume stopLoss takeProfit : pyfloat)
| create_limit_sell_order (symbol : string) (volume : pyfloat) (entry : value)
    (stopLoss takeProfit : pyfloat)
| create_stop_sell_order (symbol : string) (volume : pyfloat) (entry : value)
    (stopLoss takeProfit : pyfloat).

Record AccountInformation : Type := mkInfo {
  login : Z;
  balance : pyfloat
}.

Record Price : Type := mkPrice {
  bid : pyfloat;
  ask : pyfloat
}.

(** The brokerage side.  Every answer may depend on the calls made so far;
    an answer [Raise e] is the call raising [e]. *)
Record Gateway : Type := mkGateway {
  account_state : list Call -> Result string;        (* get_account(...).state *)
  command : list Call -> Call -> Result unit;        (* deploy, wait_*, connect *)
  account_information : list Call -> Result AccountInformation;
  symbol_price : list Call -> string -> Result Price;
  create_order : list Call -> Call -> Result string  (* result['stringCode'] *)
}.

(** The messages sent with [reply_text]. *)
Inductive Reply : Type :=
| UnauthorizedAccount   (* "Connected to an unauthorized MT4 account. Operation aborted." *)
| Connected             (* "Successfully connected to MetaTrader!\nCalculating trade risk ..." *)
| TradeInformation (table : RiskReport)   (* the table, in <pre> *)
| EnteringTrade         (* "Entering trade on MetaTrader Account ..." *)
| TradeEntered          (* "Trade entered successfully, Good Luck!" *)
| TradeIssue (error : exn)       (* "There was an issue \n\nError Message:\n{error}" *)
| ConnectionIssue (error : exn)  (* "There was an issue with the connection \n\nError Message:\n{error}" *)
| TradeParsed           (* "Trade Successfully Parsed! \nConnecting to MetaTrader ..." *)
| ParseError (error : exn)       (* "There was an error parsing this trade ... Please re-enter trade with this format: ..." *)
| EnterOrDecline        (* "Would you like to enter this trade?\nTo enter, select: /yes\nTo decline, select: /no" *)
| Canceled              (* "Command has been canceled." *)
| NotAuthorized         (* "You are not authorized to use this bot!" *)
| EnterTradeToPlace     (* "Please enter the trade that you would like to place." *)
| EnterTradeToCalculate (* "Please enter the trade that you would like to calculate." *)
| UnknownCommand        (* "Unknown command. Use /trade to place a trade ..." *)
| WelcomeMessage        (* "Hi, Welcome to the ProjexFX - Signal Trading MM Telegram Bot! ..." *)
| HelpMessage           (* "This bot is used to automatically enter trades ..." *)
| CommandList           (* "List of commands: ..." *)
| ExampleTrades.        (* "Example Trades: ..." *)

Record World : Type := mkWorld {
  heap : list Trade;               (* the dictionaries allocated so far *)
  user_data_trade : option loc;    (* context.user_data['trade'] *)
  replies : list Reply;            (* oldest first *)
  calls : list Call                (* oldest first *)
}.

(** A computation on the world that may raise.  A raise keeps the world
    as it was at the raise: what was written stays written. *)
Definition M (A : Type) : Type := World -> Result A * World.

#[global] Instance M_ret : MRet M := fun A a w => (Ok a, w).

#[global] Instance M_bind : MBind M := fun A B k m w =>
  match m w with
  | (Ok a, w') => k a w'
  | (Raise e, w') => (Raise e, w')
  end.

Definition lift {A} (r : Result A) : M A := fun w => (r, w).

Definition raise {A} (e : exn) : M A := fun w => (Raise e, w).

(** [try: body  except Exception as error: handler] *)
Definition try_except {A} (body : M A) (handler : exn -> M A) : M A :=
  fun w =>
    match body w with
    | (Ok a, w') => (Ok a, w')
    | (Raise error, w') => handler error w'
    end.

Definition reply_text (r : Reply) : M unit := fun w =>
  (Ok tt, mkWorld (heap w) (user_data_trade w) (replies w ++ [r]) (calls w)).

(** A gateway call: the answer is computed from the calls made before it,
    and the call is recorded whether it raises or not. *)
Definition await {A} (c : Call) (answer : list Call -> Result A) : M A :=
  fun w =>
    (answer (calls w),
     mkWorld (heap w) (user_data_trade w) (replies w) (calls w ++ [c])).

Definition get_user_data_trade : M (option loc) := fun w =>
  (Ok (user_data_trade w), w).

Definition set_user_data_trade (v : option loc) : M unit := fun w =>
  (Ok tt, mkWorld (heap w) v (replies w) (calls w)).

(** A new dictionary object. *)
Definition alloc (t : Trade) : M loc := fun w =>
  (Ok (length (heap w)),
   mkWorld (heap w ++ [t]) (user_data_trade w) (replies w) (calls w)).

(** Reading through a reference; [None] is Python's [None], which cannot
    be subscripted. *)
Definition deref (trade : option loc) : M Trade := fun w =>
  match trade with
  | None => (Raise TypeError, w)
  | Some l => (of_option KeyError (heap w !! l), w)
  end.

(** [trade[key] = v] through a reference: the object is updated in place. *)
Definition assign (trade : option loc) (f : Trade -> Trade) : M unit :=
  fun w =>
    match trade with
    | None => (Raise TypeError, w)
    | Some l =>
        match heap w !! l with
        | Some t =>
            (Ok tt, mkWorld (<[l := f t]> (heap w)) (user_data_trade w)
                            (replies w) (calls w))
        | None => (Raise KeyError, w)
        end
    end.

(** ** The program *)

Inductive state : Type :=
| CALCULATE | TRADE | DECISION
| END.  (* ConversationHandler.END *)

Record Update : Type := mkUpdate {
  text : string;               (* update.effective_message.text *)
  username : option string     (* update.effective_message.chat.username *)
}.

Section Program.

Variable cfg : Config.
Variable gw : Gateway.

(** [GetTradeInformation(update, trade, balance)] *)
Definition GetTradeInformation (trade : option loc) (balance : pyfloat)
  : M unit :=
  t ← deref trade;
  multiplier ← lift (resolve_multiplier t);
  stopLossPips ← lift (pips (StopLoss t) (Entry t) multiplier);
  positionSize ← lift (position_size balance (RiskFactor t) stopLossPips);
  assign trade (set_PositionSize positionSize);;
  takeProfitPips ← lift (take_profit_pips (TP t) (Entry t) multiplier);
  t ← deref trade;
  table ← lift (CreateTable t balance stopLossPips takeProfitPips);
  reply_text (TradeInformation table).

(** The creation call of one leg, by order type (lines 192-209). *)
Definition order_call (t : Trade) (volume takeProfit : pyfloat) : Call :=
  match OrderType t with
  | Buy =>
      create_market_buy_order (Symbol t) volume (StopLoss t) takeProfit
  | BuyLimit =>
      create_limit_buy_order (Symbol t) volume (Entry t) (StopLoss t) takeProfit
  | BuyStop =>
      create_stop_buy_order (Symbol t) volume (Entry t) (StopLoss t) takeProfit
  | Sell =>
      create_market_sell_order (Symbol t) volume (StopLoss t) takeProfit
  | SellLimit =>
      create_limit_sell_order (Symbol t) volume (Entry t) (StopLoss t) takeProfit
  | SellStop =>
      create_stop_sell_order (Symbol t) volume (Entry t) (StopLoss t) takeProfit
  end.

(** [for takeProfit in trade['TP']: result = await connection.create_...]:
    [result] is the variable the loop leaves behind. *)
Fixpoint place_legs (t : Trade) (legs : list pyfloat)
  (result : option string) : M (option string) :=
  match legs with
  | [] => mret result
  | takeProfit :: rest =>
      positionSize ← lift (position_size_of t);
      volume ← lift (Float.div positionSize
                       (Float.of_Z (Z.of_nat (length (TP t)))));
      let c := order_call t volume takeProfit in
      r ← await c (fun past => create_order gw past c);
      place_legs t rest (Some r)
  end.

(** The body of the inner [try] (lines 192-213). *)
Definition enter_trade (trade : option loc) : M unit :=
  t ← deref trade;
  result ← place_legs t (TP t) None;
  reply_text TradeEntered;;
  (* logger.info('Result Code: {}'.format(result['stringCode'])) *)
  match result with
  | Some _ => mret tt
  | None => raise NameError
  end.

(** [account_information['login'] != int(ALLOWED_MT4_ACCOUNT_NUMBER)] *)
Definition allowed_account_number : Result Z :=
  match ALLOWED_MT4_ACCOUNT_NUMBER cfg with
  | None => Raise TypeError
  | Some s => int_of_str s
  end.

(** Lines 153-170: the account is deployed if need be, connected and
    synchronized, and its information is read.  [MetaApi(API_KEY)] and
    [account.get_rpc_connection()] build local objects and make no call. *)
Definition connect_account : M AccountInformation :=
  initial_state ← await get_account (account_state gw);
  (if negb (Str.mem initial_state ["DEPLOYING"; "DEPLOYED"])
   then await deploy (fun past => command gw past deploy)
   else mret tt);;
  await wait_connected (fun past => command gw past wait_connected);;
  await connect (fun past => command gw past connect);;
  await wait_synchronized (fun past => command gw past wait_synchronized);;
  await get_account_information (account_information gw).

(** Lines 179-185: the live price takes the place of the entry ['NOW']. *)
Definition resolve_entry (trade : option loc) : M unit :=
  t ← deref trade;
  if is_NOW (Entry t) then
    let c := get_symbol_price (Symbol t) in
    price ← await c (fun past => symbol_price gw past (Symbol t));
    match OrderType t with
    | Buy => assign trade (set_Entry (VFloat (bid price)))
    | Sell => assign trade (set_Entry (VFloat (ask price)))
    | _ => mret tt
    end
  else mret tt.

(** The body of the outer [try] (lines 153-217). *)
Definition connect_and_trade (trade : option loc) (enterTrade : bool)
  : M unit :=
  info ← connect_account;
  allowed ← lift allowed_account_number;
  if negb (login info =? allowed)%Z then reply_text UnauthorizedAccount
  else
    reply_text Connected;;
    resolve_entry trade;;
    GetTradeInformation trade (balance info);;
    if enterTrade then
      reply_text EnteringTrade;;
      try_except (enter_trade trade)
                 (fun error => reply_text (TradeIssue error))
    else mret tt.

(** [ConnectMetaTrader(update, trade, enterTrade)] *)
Definition ConnectMetaTrader (trade : option loc) (enterTrade : bool)
  : M unit :=
  try_except (connect_and_trade trade enterTrade)
             (fun error => reply_text (ConnectionIssue error)).

(** The body of the [try] of PlaceTrade and CalculateTrade. *)
Definition parse_and_store (signal : string) : M unit :=
  trade ← lift (ParseSignal cfg signal);
  match trade with
  | None => raise InvalidTrade          (* if not trade: raise Exception('Invalid Trade') *)
  | Some t =>
      l ← alloc t;
      set_user_data_trade (Some l);;
      reply_text TradeParsed
  end.

(** The [if context.user_data['trade'] is None] block: [Some s] is an
    early [return s]. *)
Definition parse_if_needed (update : Update) (same : state)
  : M (option state) :=
  slot ← get_user_data_trade;
  match slot with
  | None =>
      try_except (parse_and_store (text update);; mret None)
                 (fun error => reply_text (ParseError error);; mret (Some same))
  | Some _ => mret None
  end.

(** [PlaceTrade(update, context)] *)
Definition PlaceTrade (update : Update) : M state :=
  early ← parse_if_needed update TRADE;
  match early with
  | Some s => mret s
  | None =>
      trade ← get_user_data_trade;
      ConnectMetaTrader trade true;;
      set_user_data_trade None;;
      mret END
  end.

(** [CalculateTrade(update, context)] *)
Definition CalculateTrade (update : Update) : M state :=
  early ← parse_if_needed update CALCULATE;
  match early with
  | Some s => mret s
  | None =>
      trade ← get_user_data_trade;
      ConnectMetaTrader trade false;;
      reply_text EnterOrDecline;;
      mret DECISION
  end.

(** [cancel(update, context)] *)
Definition cancel (update : Update) : M state :=
  reply_text Canceled;;
  set_user_data_trade None;;
  mret END.

(** [update.effective_message.chat.username == TELEGRAM_USER] *)
Definition authorized (update : Update) : bool :=
  match username update, TELEGRAM_USER cfg with
  | Some u, Some v => String.eqb u v
  | None, None => true
  | _, _ => false
  end.

(** [Trade_Command(update, context)] *)
Definition Trade_Command (update : Update) : M state :=
  if negb (authorized update) then reply_text NotAuthorized;; mret END
  else
    set_user_data_trade None;;
    reply_text EnterTradeToPlace;;
    mret TRADE.

(** [Calculation_Command(update, context)] *)
Definition Calculation_Command (update : Update) : M state :=
  if negb (authorized update) then reply_text NotAuthorized;; mret END
  else
    set_user_data_trade None;;
    reply_text EnterTradeToCalculate;;
    mret CALCULATE.

(** [unknown_command(update, context)] *)
Definition unknown_command (update : Update) : M unit :=
  if negb (authorized update) then reply_text NotAuthorized
  else reply_text UnknownCommand.

(** The name of the command a message starts with, if any. *)
Definition command_name (update : Update) : option string :=
  match head (Str.split (text update)) with
  | Some (String "/"%char name) => Some name
  | _ => None
  end.

Definition is_command (update : Update) (name : string) : bool :=
  match command_name update with
  | Some n => String.eqb n name
  | None => false
  end.

(** [Filters.text & ~Filters.command] *)
Definition is_plain_text (update : Update) : bool :=
  match command_name update with
  | Some _ => false
  | None => true
  end.

(** [welcome(update, context)] *)
Definition welcome (update : Update) : M unit :=
  reply_text WelcomeMessage.

(** [help(update, context)] *)
Definition help (update : Update) : M unit :=
  reply_text HelpMessage;;
  reply_text CommandList;;
  reply_text ExampleTrades.

(** The state handlers and fallbacks of the [ConversationHandler] of
    [main]: entry points outside a conversation, the handlers of the current
    state within one, then the fallbacks; an update that none of them takes
    goes to [unknown_command], registered after the conversation, and
    leaves the state as it is. *)
Definition conversation (s : state) (update : Update) : M state :=
  match s with
  | END =>
      if is_command update "trade" then Trade_Command update
      else if is_command update "calculate" then Calculation_Command update
      else unknown_command update;; mret END
  | TRADE =>
      if is_plain_text update then PlaceTrade update
      else if is_command update "cancel" then cancel update
      else unknown_command update;; mret TRADE
  | CALCULATE =>
      if is_plain_text update then CalculateTrade update
      else if is_command update "cancel" then cancel update
      else unknown_command update;; mret CALCULATE
  | DECISION =>
      if is_command update "yes" then PlaceTrade update
      else if is_command update "no" then cancel update
      else if is_command update "cancel" then cancel update
      else unknown_command update;; mret DECISION
  end.

(** The dispatcher of [main]: the handlers of one group, in the order they
    are added; the first that takes the update handles it.  /start and
    /help come before the conversation and do not touch its state. *)
Definition handle (s : state) (update : Update) : M state :=
  if is_command update "start" then welcome update;; mret s
  else if is_command update "help" then help update;; mret s
  else conversation s update.

(** A conversation: the updates of one chat, in order. *)
Fixpoint converse (s : state) (updates : list Update) : M state :=
  match updates with
  | [] => mret s
  | update :: rest =>
      s' ← handle s update;
      converse s' rest
  end.

End Program.

Definition empty_world : World := mkWorld [] None [] [].

(** * Vocabulary of the properties *)

(** ** Signals *)



(** The parser's outcome is a rejection: an empty dictionary or a raise,
    both of which the handlers turn into the usage message. *)
Definition rejected (r : Result (option Trade)) : Prop :=
  match r with
  | Ok (Some _) => False
  | _ => True
  end.

(** The exception the [except] clause of the handlers receives. *)
Definition rejection_error (r : Result (option Trade)) : exn :=
  match r with
  | Raise e => e
  | Ok _ => InvalidTrade
  end.

(** [(signal[1].split())[-1]]: the entry token. *)
Definition entry_token (signal : string) : Result string :=
  line1 ← Str.item (signal_lines signal) 1;
  Str.last_token line1.

(** A text from its lines, joined by line feeds. *)
Definition unlines (lines : list string) : string :=
  String.concat (String (ascii_of_nat 10) EmptyString) lines.

(** ** Risk arithmetic, in the words of the specification *)

(** The amount floored to two decimal places. *)
Definition floor_to_cents (x : Q) : Q := (inject_Z (Qfloor (x * 100)) / 100)%Q.

(** floor(((balance * riskFraction) / stopLossPips) / 10 * 100) / 100 *)
Definition spec_position_size (balance risk : Q) (stopLossPips : Z) : Q :=
  floor_to_cents ((balance * risk) / inject_Z stopLossPips / 10).

(** The multiplier: gold, silver, then the position of the decimal point in
    the text of the entry. *)
Definition spec_multiplier (symbol entry_text : string) : Q :=
  if String.eqb symbol "XAUUSD" then 1 # 10
  else if String.eqb symbol "XAGUSD" then 1 # 1000
  else match Str.find_char "."%char entry_text with
       | Some i => if (2 <=? i)%nat then 1 # 100 else 1 # 10000
       | None => 1 # 10000
       end.

(** abs(round((price - entry) / multiplier)) *)
Definition spec_pips (price entry multiplier : Q) : Z :=
  Z.abs (Float.round_half_even ((price - entry) / multiplier)).

(** The multiplier test reads the text of the entry only for symbols other
    than gold and silver. *)
Definition reads_entry_text (t : Trade) : bool :=
  negb (String.eqb (Symbol t) "XAUUSD") && negb (String.eqb (Symbol t) "XAGUSD").

(** The error, if any, that stops GetTradeInformation before it assigns
    the position size. *)
Definition risk_error (t : Trade) (balance : pyfloat) : option exn :=
  match resolve_multiplier t with
  | Raise e => Some e
  | Ok m =>
    match pips (StopLoss t) (Entry t) m with
    | Raise e => Some e
    | Ok p =>
      match position_size balance (RiskFactor t) p with
      | Raise e => Some e
      | Ok _ => None
      end
    end
  end.

(** ** Worlds and traffic *)

Definition with_heap (h : list Trade) (w : World) : World :=
  mkWorld h (user_data_trade w) (replies w) (calls w).

Definition with_reply (r : Reply) (w : World) : World :=
  mkWorld (heap w) (user_data_trade w) (replies w ++ [r]) (calls w).

Definition with_calls (cs : list Call) (w : World) : World :=
  mkWorld (heap w) (user_data_trade w) (replies w) (calls w ++ cs).

Definition with_replies (rs : list Reply) (w : World) : World :=
  mkWorld (heap w) (user_data_trade w) (replies w ++ rs) (calls w).

(** The calls that deploy, connect and read the account. *)
Definition is_setup_call (c : Call) : bool :=
  match c with
  | get_account | deploy | wait_connected | connect | wait_synchronized
  | get_account_information => true
  | _ => false
  end.

Definition is_price_call (c : Call) : bool :=
  match c with
  | get_symbol_price _ => true
  | _ => false
  end.

Definition is_order_call (c : Call) : bool :=
  negb (is_setup_call c) && negb (is_price_call c).

Definition is_report (r : Reply) : bool :=
  match r with
  | TradeInformation _ => true
  | _ => false
  end.

(** ** Scenarios *)

(** A risk factor of 2 %, the allowed account 4835673. *)
Definition config_2pct : Config :=
  mkConfig (Finite (1 # 50)) (Some "4835673") (Some "trader").

(** The two examples of the help message. *)
Definition market_signal : string :=
  unlines ["BUY GBPUSD"; "Entry NOW"; "SL 1.14336"; "TP 1.28930"; "TP 1.29845"].

Definition limit_signal : string :=
  unlines ["BUY LIMIT GBPUSD"; "Entry 1.14480"; "SL 1.14336"; "TP 1.28930"].

(** The limit example with the stop-loss at the entry. *)
Definition zero_pip_signal : string :=
  unlines ["BUY LIMIT GBPUSD"; "Entry 1.14480"; "SL 1.14480"; "TP 1.28930"].

(** The limit example with a negative entry. *)
Definition negative_entry_signal : string :=
  unlines ["BUY LIMIT GBPUSD"; "Entry -1.14480"; "SL 1.14336"; "TP 1.28930"].

(** The market example with the marker in lower case. *)
Definition lowercase_now_signal : string :=
  unlines ["BUY GBPUSD"; "Entry now"; "SL 1.14336"; "TP 1.28930"].

(** The market example without its stop-loss line and second target. *)
Definition missing_stop_loss_signal : string :=
  unlines ["BUY GBPUSD"; "Entry NOW"; "TP 1.28930"].

Definition limit_trade : Trade :=
  mkTrade BuyLimit "GBPUSD" (VFloat (Finite (1431 # 1250)))
          (Finite (3573 # 3125)) [Finite (12893 # 10000)] (Finite (1 # 50)) None.

Definition zero_pip_trade : Trade :=
  mkTrade BuyLimit "GBPUSD" (VFloat (Finite (1431 # 1250)))
          (Finite (1431 # 1250)) [Finite (12893 # 10000)] (Finite (1 # 50)) None.

Definition lowercase_now_trade : Trade :=
  mkTrade Buy "GBPUSD" (VStr "now")
          (Finite (3573 # 3125)) [Finite (12893 # 10000)] (Finite (1 # 50)) None.

(** The market example once the risk has been calculated at a bid of 1.25. *)
Definition sized_market_trade : Trade :=
  mkTrade Buy "GBPUSD" (VFloat (Finite (5 # 4)))
          (Finite (3573 # 3125)) [Finite (12893 # 10000); Finite (25969 # 20000)]
          (Finite (1 # 50)) (Some (Finite (1 # 100))).

(** A world whose only dictionary is [t], held by the conversation. *)
Definition world_of (t : Trade) : World := mkWorld [t] (Some 0%nat) [] [].

(** A gateway that accepts every call: the account is deployed and is the
    allowed one, the balance is 10000, and the bid is 1.25 the first time a
    price is asked and 1.30 afterwards. *)
Definition gateway_moving : Gateway :=
  mkGateway
    (fun _ => Ok "DEPLOYED")
    (fun _ _ => Ok tt)
    (fun _ => Ok (mkInfo 4835673 (Finite 10000)))
    (fun past _ =>
       if existsb is_price_call past
       then Ok (mkPrice (Finite (13 # 10)) (Finite (13002 # 10000)))
       else Ok (mkPrice (Finite (5 # 4)) (Finite (12502 # 10000))))
    (fun _ _ => Ok "TRADE_RETCODE_DONE").

(** The same gateway, except that the first order it receives raises. *)
Definition gateway_first_order_fails : Gateway :=
  mkGateway
    (account_state gateway_moving)
    (command gateway_moving)
    (account_information gateway_moving)
    (symbol_price gateway_moving)
    (fun past _ =>
       if existsb is_order_call past then Ok "TRADE_RETCODE_DONE"
       else Raise (GatewayError "TRADE_RETCODE_INVALID_STOPS")).

Definition from_trader (message : string) : Update :=
  mkUpdate message (Some "trader").

(** The market example followed by a line the parser does not read. *)
Definition long_market_signal : string :=
  unlines ["BUY GBPUSD"; "Entry NOW"; "SL 1.14336"; "TP 1.28930"; "TP 1.29845";
           "sent from my phone"].

(** The market example in lower case, with other labels or none. *)
Definition relabelled_market_signal : string :=
  unlines ["buy gbpusd"; "NOW"; "stop 1.14336"; "1.28930"; "target 1.29845"].

Definition market_trade : Trade :=
  mkTrade Buy "GBPUSD" (VStr "NOW")
          (Finite (3573 # 3125)) [Finite (12893 # 10000); Finite (25969 # 20000)]
          (Finite (1 # 50)) None.


(** The environment variable named 4835673 is not set. *)
Definition config_without_account : Config :=
  mkConfig (Finite (1 # 50)) None (Some "trader").

(** Another account than the one the gateway answers for is allowed. *)
Definition config_other_account : Config :=
  mkConfig (Finite (1 # 50)) (Some "1111") (Some "trader").

Definition from_stranger (message : string) : Update :=
  mkUpdate message (Some "stranger").

(** The world once [gateway_moving] has connected the account. *)
Definition connected_world : World :=
  mkWorld [limit_trade] (Some 0%nat) []
          [get_account; wait_connected; connect; wait_synchronized;
           get_account_information].

(** ** What a computation leaves alone *)

(** The keys that only the parser writes are the same in both. *)
Definition same_signal (t t' : Trade) : Prop :=
  OrderType t' = OrderType t /\
  Symbol t' = Symbol t /\
  StopLoss t' = StopLoss t /\
  TP t' = TP t /\
  RiskFactor t' = RiskFactor t.

(** [w'] is [w] after some steps that keep the pending slot, create no
    dictionary, keep the parsed keys of every dictionary, only add replies,
    and only add gateway calls that [allowed] accepts. *)
Record after (allowed : Call -> bool) (w w' : World) : Prop := mkAfter {
  after_slot : user_data_trade w' = user_data_trade w;
  after_heap : length (heap w') = length (heap w);
  after_trades :
    forall l t, heap w !! l = Some t ->
                exists t', heap w' !! l = Some t' /\ same_signal t t';
  after_replies : exists rs, replies w' = (replies w ++ rs)%list;
  after_calls :
    exists cs, calls w' = (calls w ++ cs)%list /\ forallb allowed cs = true
}.

(** Every run of [m] ends in a world that is [after] the one it started in,
    whether it returns or raises. *)
Definition confined {A} (allowed : Call -> bool) (m : M A) : Prop :=
  forall w, after allowed w (snd (m w)).

Definition any_call (c : Call) : bool := true.

Definition no_call (c : Call) : bool := false.

Definition not_an_order (c : Call) : bool := negb (is_order_call c).

(** The conversation state and the pending slot agree: a trade is pending
    exactly while the decision is awaited, and it is a dictionary of the
    heap. *)
Definition consistent (s : state) (w : World) : Prop :=
  match s with
  | DECISION =>
      exists l, user_data_trade w = Some l /\ (l < length (heap w))%nat
  | _ => user_data_trade w = None
  end.

(** The sum of a list of floats, from [start], as [totalProfit += profit]
    adds them. *)
Definition total_from (start : pyfloat) (xs : list pyfloat) : pyfloat :=
  fold_left Float.add xs start.

(** [w'] has the calls of [w] and then some that [allowed] accepts. *)
Definition adds_calls (allowed : Call -> bool) (w w' : World) : Prop :=
  exists cs, calls w' = (calls w ++ cs)%list /\ forallb allowed cs = true.


(** Between [w] and [w'] replies and calls were only added, and an order
    was placed only if a risk report was sent. *)
Definition orders_follow_report (w w' : World) : Prop :=
  exists rs cs,
    replies w' = (replies w ++ rs)%list /\
    calls w' = (calls w ++ cs)%list /\
    (existsb is_order_call cs = true -> existsb is_report rs = true).

Definition reporting {A} (m : M A) : Prop :=
  forall w, orders_follow_report w (snd (m w)).


Definition not_a_price_request (c : Call) : bool := negb (is_price_call c).

(** The first five lines of a signal. *)
Definition first_five (signal : string) : list string :=
  take 5 (signal_lines signal).

(** The parser on what it reads of a signal: the classification of line 0,
    the upper-cased last token of line 0, the last tokens of the lines 1 to
    4 that exist ([None] for a line without a token). *)
Definition parse_tokens (cfg : Config) (orderType : option order_type)
  (symbol : Result string) (tokens : list (Result string))
  : Result (option Trade) :=
  let float_token (i : nat) : Result pyfloat :=
    tok ← (of_option IndexError (tokens !! i) ≫= id);
    float_of_str tok in
  match orderType with
  | None => Ok None
  | Some orderType =>
      symbol ← symbol;
      if negb (Str.mem symbol SYMBOLS) then Ok None
      else
        entry ← (if is_market orderType
                 then tok1 ← (of_option IndexError (tokens !! 0%nat) ≫= id);
                      Ok (VStr tok1)
                 else x ← float_token 0%nat; Ok (VFloat x));
        stopLoss ← float_token 1%nat;
        tp1 ← float_token 2%nat;
        tp ← (if (3 <? length tokens)%nat
              then tp2 ← float_token 3%nat; Ok [tp1; tp2]
              else Ok [tp1]);
        Ok (Some (mkTrade orderType symbol entry stopLoss tp
                          (RISK_FACTOR cfg) None))
  end.

(** * Properties *)

(** ** Strings: case folding and substrings *)



Lemma bind_Ok {A B} (r : Result A) (k : A -> Result B) (b : B) :
  r ≫= k = Ok b -> exists a, r = Ok a /\ k a = Ok b.
Proof. destruct r as [a|e]; [eauto | discriminate]. Qed.

Lemma bind_Raise {A B} (r : Result A) (k : A -> Result B) (e : exn) :
  r = Raise e -> r ≫= k = Raise e.
Proof. now intros ->. Qed.

(** Splits a hypothesis [x ← r; k = Ok b] into [r = Ok a] and [k a = Ok b],
    as often as it applies. *)
Ltac inv_bind H :=
  let a := fresh "a" in
  let Ha := fresh "Ha" in
  apply bind_Ok in H as (a & Ha & H); try inv_bind H.

Lemma ParseSignal_line0 cfg signal line0 :
  signal_lines signal !! 0%nat = Some line0 ->
  match classify line0 with
  | None => ParseSignal cfg signal = Ok None
  | Some ot => forall t, ParseSignal cfg signal = Ok (Some t) -> OrderType t = ot
  end.
Proof.
  intros H0. unfold ParseSignal, Str.item. rewrite H0.
  change (of_option IndexError (Some line0) ≫= ?k) with (k line0).
  cbv beta.
  destruct (classify line0) as [ot|]; [|reflexivity].
  intros t H. inv_bind H.
  destruct (Str.mem (Str.upper a) SYMBOLS); [|discriminate].
  simpl in H. inv_bind H. 
  now injection H as <-.
Qed.

(** What an accepted signal tells about the text it was parsed from. *)
Lemma ParseSignal_Some cfg signal t :
  ParseSignal cfg signal = Ok (Some t) ->
  exists line0 tok0 tok1,
    signal_lines signal !! 0%nat = Some line0 /\
    classify line0 = Some (OrderType t) /\
    Str.last_token line0 = Ok tok0 /\
    Symbol t = Str.upper tok0 /\
    Str.mem (Symbol t) SYMBOLS = true /\
    entry_token signal = Ok tok1 /\
    (if is_market (OrderType t) then Entry t = VStr tok1
     else exists x, float_of_str tok1 = Ok x /\ Entry t = VFloat x) /\
    float_at (signal_lines signal) 2 = Ok (StopLoss t) /\
    (exists tp1, float_at (signal_lines signal) 3 = Ok tp1 /\
       if (4 <? length (signal_lines signal))%nat
       then exists tp2, float_at (signal_lines signal) 4 = Ok tp2
                        /\ TP t = [tp1; tp2]
       else TP t = [tp1]) /\
    RiskFactor t = RISK_FACTOR cfg /\
    PositionSize t = None.
Proof.
  unfold ParseSignal, entry_token. intros H.
  apply bind_Ok in H as (line0 & H0 & H).
  unfold Str.item in H0.
  destruct (signal_lines signal !! 0%nat) as [l0|] eqn:E0; [|discriminate].
  injection H0 as ->.
  destruct (classify line0) as [ot|] eqn:Ec; [|discriminate].
  apply bind_Ok in H as (tok0 & Ht0 & H).
  destruct (Str.mem (Str.upper tok0) SYMBOLS) eqn:Em; [|discriminate].
  simpl in H.
  apply bind_Ok in H as (entry & He & H).
  apply bind_Ok in H as (sl & Hsl & H).
  apply bind_Ok in H as (tp1 & Htp1 & H).
  apply bind_Ok in H as (tp & Htp & H).
  injection H as <-. simpl.
  exists line0, tok0.
  destruct (is_market ot) eqn:Emk.
  - apply bind_Ok in He as (line1 & H1 & He).
    apply bind_Ok in He as (tok1 & Ht1 & He).
    injection He as <-.
    exists tok1. rewrite H1. simpl. rewrite Ht1.
    repeat split; try assumption; try reflexivity.
    exists tp1. split; [assumption|].
    destruct (4 <? length (signal_lines signal))%nat.
    + apply bind_Ok in Htp as (tp2 & Htp2 & Htp). injection Htp as <-. eauto.
    + now injection Htp as <-.
  - apply bind_Ok in He as (x & Hx & He). injection He as <-.
    unfold float_at in Hx.
    apply bind_Ok in Hx as (line1 & H1 & Hx).
    apply bind_Ok in Hx as (tok1 & Ht1 & Hx).
    exists tok1. rewrite H1. simpl. rewrite Ht1.
    repeat split; try assumption; try reflexivity.
    + eauto.
    + exists tp1. split; [assumption|].
      destruct (4 <? length (signal_lines signal))%nat.
      * apply bind_Ok in Htp as (tp2 & Htp2 & Htp). injection Htp as <-. eauto.
      * now injection Htp as <-.
Qed.




Lemma no_line0_rejected cfg signal :
  signal_lines signal !! 0%nat = None -> ParseSignal cfg signal = Raise IndexError.
Proof. intros H. unfold ParseSignal, Str.item. now rewrite H. Qed.

Lemma float_of_str_Ok tok x :
  float_of_str tok = Ok x <-> Literal.floatvalue tok = Some x.
Proof.
  unfold float_of_str. destruct (Literal.floatvalue tok); simpl; split; congruence.
Qed.

(** Claim C7, amended: a signal of a limit or stop order is accepted only
    if its entry token, the last token of line 1, is a float literal, and
    the entry is the float it denotes.  The literal may be negative, zero,
    in exponent form, inf or nan: it need not be a positive decimal. *)
Theorem pending_entry_is_a_float_literal (cfg : Config) (signal : string)
  (t : Trade) (Hparse : ParseSignal cfg signal = Ok (Some t))
  (Hpending : is_market (OrderType t) = false) :
  exists tok x,
    entry_token signal = Ok tok /\
    Literal.floatvalue tok = Some x /\
    Entry t = VFloat x.
Proof.
  apply ParseSignal_Some in Hparse
    as (line0 & tok0 & tok1 & _ & _ & _ & _ & _ & Htok & He & _).
  rewrite Hpending in He. destruct He as (x & Hx & He).
  exists tok1, x. now rewrite <- float_of_str_Ok.
Qed.

(** A pending order whose entry token is not a float literal is rejected. *)
Lemma pending_entry_not_a_literal_rejected cfg signal line0 ot tok :
  signal_lines signal !! 0%nat = Some line0 ->
  classify line0 = Some ot ->
  is_market ot = false ->
  entry_token signal = Ok tok ->
  Literal.floatvalue tok = None ->
  rejected (ParseSignal cfg signal).
Proof.
  intros H0 Hc Hm Htok Hnone.
  destruct (ParseSignal cfg signal) as [[t|]|e] eqn:E; simpl; auto.
  pose proof (ParseSignal_line0 cfg signal line0 H0) as HP.
  rewrite Hc in HP. specialize (HP t E).
  apply ParseSignal_Some in E
    as (_ & _ & tok1 & _ & _ & _ & _ & _ & Htok1 & He & _).
  rewrite HP, Hm in He. destruct He as (x & Hx & _).
  rewrite Htok in Htok1. injection Htok1 as <-.
  apply float_of_str_Ok in Hx. congruence.
Qed.

(** ** The handlers *)

Section Handlers.

Variable cfg : Config.
Variable gw : Gateway.

Lemma plain_text_is_no_command (update : Update) (name : string) :
  is_plain_text update = true -> is_command update name = false.
Proof.
  unfold is_plain_text, is_command.
  now destruct (command_name update).
Qed.

Lemma parse_if_needed_rejected update same w :
  user_data_trade w = None ->
  rejected (ParseSignal cfg (text update)) ->
  parse_if_needed cfg update same w
  = (Ok (Some same),
     mkWorld (heap w) None
       (replies w ++ [ParseError (rejection_error (ParseSignal cfg (text update)))])
       (calls w)).
Proof.
  intros Hslot Hrej.
  unfold parse_if_needed, get_user_data_trade, try_except, parse_and_store,
    lift, raise, reply_text, mbind, M_bind, mret, M_ret.
  rewrite Hslot.
  destruct (ParseSignal cfg (text update)) as [[t|]|e]; simpl in *;
    [contradiction| |]; now rewrite Hslot.
Qed.

(** Claim C8: when no trade is pending and the parser rejects the text
    (it raises, or returns the empty dictionary), PlaceTrade and
    CalculateTrade return normally with their own state constant, TRADE and
    CALCULATE; the only effect is one reply, the usage message with the
    error; the pending slot stays empty, no dictionary is created and the
    gateway is not called.  The same holds of the conversation handler on a
    plain text message in either state. *)
Theorem malformed_signal_reprompts (update : Update) (w : World)
  (Hslot : user_data_trade w = None)
  (Hmalformed : rejected (ParseSignal cfg (text update))) :
  exists error,
    let w' := mkWorld (heap w) None (replies w ++ [ParseError error]) (calls w) in
    PlaceTrade cfg gw update w = (Ok TRADE, w') /\
    CalculateTrade cfg gw update w = (Ok CALCULATE, w') /\
    (is_plain_text update = true ->
     handle cfg gw TRADE update w = (Ok TRADE, w') /\
     handle cfg gw CALCULATE update w = (Ok CALCULATE, w')).
Proof.
  pose proof (parse_if_needed_rejected update TRADE w Hslot Hmalformed) as HT.
  pose proof (parse_if_needed_rejected update CALCULATE w Hslot Hmalformed) as HC.
  exists (rejection_error (ParseSignal cfg (text update))). cbv zeta.
  assert (HP : PlaceTrade cfg gw update w
               = (Ok TRADE, mkWorld (heap w) None
                    (replies w ++ [ParseError (rejection_error (ParseSignal cfg (text update)))])
                    (calls w))).
  { unfold PlaceTrade. unfold mbind at 1. unfold M_bind. now rewrite HT. }
  assert (HCa : CalculateTrade cfg gw update w
               = (Ok CALCULATE, mkWorld (heap w) None
                    (replies w ++ [ParseError (rejection_error (ParseSignal cfg (text update)))])
                    (calls w))).
  { unfold CalculateTrade. unfold mbind at 1. unfold M_bind. now rewrite HC. }
  split; [assumption|]. split; [assumption|].
  intros Hplain. unfold handle.
  rewrite !(plain_text_is_no_command update _ Hplain).
  unfold conversation. now rewrite Hplain.
Qed.

End Handlers.

(** ** Arithmetic *)

Lemma is_zero_false q : Float.is_zero q = false <-> ~ (q == 0)%Q.
Proof.
  unfold Float.is_zero. split.
  - intros H E. apply Qeq_bool_iff in E. congruence.
  - intros H. destruct (Qeq_bool q 0) eqn:E; [|reflexivity].
    apply Qeq_bool_iff in E. contradiction.
Qed.

Lemma is_zero_true q : Float.is_zero q = true <-> (q == 0)%Q.
Proof. apply Qeq_bool_iff. Qed.

Lemma is_zero_inject_Z n : n <> 0%Z -> Float.is_zero (inject_Z n) = false.
Proof.
  intros H. apply is_zero_false. intros E.
  apply H. unfold Qeq in E. simpl in E. lia.
Qed.

Lemma round_half_even_comp x y :
  (x == y)%Q -> Float.round_half_even x = Float.round_half_even y.
Proof.
  intros E. unfold Float.round_half_even.
  rewrite (Qfloor_comp _ _ E).
  assert (E' : (x - inject_Z (Qfloor y) == y - inject_Z (Qfloor y))%Q)
    by now rewrite E.
  now rewrite (Qcompare_comp _ _ E' (1 # 2) (1 # 2) (Qeq_refl _)).
Qed.

Lemma round_half_even_0 : Float.round_half_even 0 = 0%Z.
Proof. reflexivity. Qed.




Lemma floor_to_cents_mono x y : (x <= y)%Q -> (floor_to_cents x <= floor_to_cents y)%Q.
Proof.
  intros H. unfold floor_to_cents.
  assert (Hf : (Qfloor (x * 100) <= Qfloor (y * 100))%Z).
  { apply Qfloor_resp_le. lra. }
  apply Qle_shift_div_r; [reflexivity|].
  assert (E : (inject_Z (Qfloor (y * 100)) / 100 * 100 == inject_Z (Qfloor (y * 100)))%Q)
    by field.
  rewrite E. now rewrite <- Zle_Qle.
Qed.

Lemma position_size_finite (b r : Q) (p : Z) :
  p <> 0%Z ->
  exists ps, position_size (Finite b) (Finite r) p = Ok (Finite ps)
             /\ (ps == spec_position_size b r p)%Q.
Proof.
  intros Hp. unfold position_size, Float.int_div, Float.div, Float.mul,
    Float.floor, Float.of_Z.
  rewrite (is_zero_inject_Z p Hp).
  cbn [mbind result_bind].
  rewrite (is_zero_inject_Z 10) by lia. cbn [mbind result_bind].
  rewrite (is_zero_inject_Z 100) by lia.
  eexists. split; [reflexivity|].
  rewrite Qred_correct. unfold spec_position_size, floor_to_cents.
  apply Qeq_sym.
  match goal with
  | |- (inject_Z (Qfloor ?a) / _ == inject_Z (Qfloor ?b) / _)%Q =>
      assert (E : (a == b)%Q)
  end.
  { rewrite !Qred_correct. reflexivity. }
  now rewrite (Qfloor_comp _ _ E).
Qed.

Lemma position_size_zero_pips (balance risk : pyfloat) :
  position_size balance risk 0 = Raise ZeroDivisionError.
Proof. reflexivity. Qed.

Lemma div_mono_pips (x : Q) (p1 p2 : Z) :
  (0 <= x)%Q -> (0 < p1)%Z -> (p1 <= p2)%Z ->
  (x / inject_Z p2 <= x / inject_Z p1)%Q.
Proof.
  intros Hx H1 H12.
  assert (Q1 : (0 < inject_Z p1)%Q) by (rewrite Zlt_Qlt in H1; exact H1).
  assert (Q12 : (inject_Z p1 <= inject_Z p2)%Q) by (now rewrite <- Zle_Qle).
  assert (Q2 : (0 < inject_Z p2)%Q) by lra.
  apply Qle_shift_div_r; [exact Q2|].
  assert (E : (x / inject_Z p1 * inject_Z p2 == x * (inject_Z p2 / inject_Z p1))%Q).
  { field. lra. }
  rewrite E.
  assert (H : (1 <= inject_Z p2 / inject_Z p1)%Q).
  { apply Qle_shift_div_l; lra. }
  nra.
Qed.

Lemma spec_position_size_mono (b r : Q) (p1 p2 : Z) :
  (0 <= b * r)%Q -> (0 < p1)%Z -> (p1 <= p2)%Z ->
  (spec_position_size b r p2 <= spec_position_size b r p1)%Q.
Proof.
  intros Hx H1 H12. unfold spec_position_size.
  apply floor_to_cents_mono.
  pose proof (div_mono_pips (b * r) p1 p2 Hx H1 H12) as H.
  apply Qle_shift_div_r; [reflexivity|].
  assert (E : (b * r / inject_Z p1 / 10 * 10 == b * r / inject_Z p1)%Q).
  { field. rewrite Zlt_Qlt in H1. intros E0. rewrite E0 in H1. now apply Qlt_irrefl in H1. }
  rewrite E. exact H.
Qed.

(** ** Pips and the multiplier *)

Lemma resolve_multiplier_spec (t : Trade) :
  resolve_multiplier t =
  if reads_entry_text t then
    match Str.find_char "."%char (py_str (Entry t)) with
    | Some _ => Ok (spec_multiplier (Symbol t) (py_str (Entry t)))
    | None => Raise ValueError
    end
  else Ok (spec_multiplier (Symbol t) (py_str (Entry t))).
Proof.
  unfold resolve_multiplier, reads_entry_text, spec_multiplier, Str.index_dot.
  destruct (String.eqb (Symbol t) "XAUUSD"); [reflexivity|].
  destruct (String.eqb (Symbol t) "XAGUSD"); [reflexivity|].
  cbn [negb andb].
  destruct (Str.find_char "."%char (py_str (Entry t))) as [i|]; [|reflexivity].
  cbn [of_option mbind result_bind]. now destruct (2 <=? i)%nat.
Qed.

Lemma resolve_multiplier_nonzero (t : Trade) (m : Q) :
  resolve_multiplier t = Ok m -> Float.is_zero m = false /\ (0 < m)%Q.
Proof.
  unfold resolve_multiplier, Str.index_dot.
  destruct (String.eqb (Symbol t) "XAUUSD"); [intros [= <-]; now split|].
  destruct (String.eqb (Symbol t) "XAGUSD"); [intros [= <-]; now split|].
  destruct (Str.find_char "."%char (py_str (Entry t))) as [i|]; [|discriminate].
  cbn [of_option mbind result_bind].
  destruct (2 <=? i)%nat; intros [= <-]; now split.
Qed.

Lemma pips_finite (price e m : Q) :
  Float.is_zero m = false ->
  pips (Finite price) (VFloat (Finite e)) m = Ok (spec_pips price e m).
Proof.
  intros Hm. unfold pips, minus_entry, Float.sub, Float.add, Float.opp,
    Float.div, Float.round.
  cbn [mbind result_bind]. rewrite Hm. cbn [mbind result_bind].
  unfold spec_pips. f_equal. f_equal.
  apply round_half_even_comp.
  rewrite !Qred_correct. reflexivity.
Qed.

Lemma pips_str (price : pyfloat) (s : string) (m : Q) :
  pips price (VStr s) m = Raise TypeError.
Proof. reflexivity. Qed.

Lemma spec_pips_same (price e m : Q) :
  (price == e)%Q -> spec_pips price e m = 0%Z.
Proof.
  intros E. unfold spec_pips.
  assert (E0 : ((price - e) / m == 0)%Q).
  { rewrite E. unfold Qdiv. ring. }
  rewrite (round_half_even_comp _ _ E0). reflexivity.
Qed.


(** ** GetTradeInformation, step by step *)

Lemma GetTradeInformation_run (l : loc) (t : Trade) (balance : pyfloat)
  (w : World) :
  heap w !! l = Some t ->
  GetTradeInformation (Some l) balance w =
  match resolve_multiplier t with
  | Raise e => (Raise e, w)
  | Ok m =>
    match pips (StopLoss t) (Entry t) m with
    | Raise e => (Raise e, w)
    | Ok p =>
      match position_size balance (RiskFactor t) p with
      | Raise e => (Raise e, w)
      | Ok ps =>
        let t' := set_PositionSize ps t in
        let w' := with_heap (<[l := t']> (heap w)) w in
        match take_profit_pips (TP t) (Entry t) m with
        | Raise e => (Raise e, w')
        | Ok tps =>
          match CreateTable t' balance p tps with
          | Raise e => (Raise e, w')
          | Ok table => (Ok tt, with_reply (TradeInformation table) w')
          end
        end
      end
    end
  end.
Proof.
  intros Hl.
  assert (Hlt : (l < length (heap w))%nat) by (eapply lookup_lt_Some; eauto).
  unfold GetTradeInformation, mbind, M_bind, deref, lift, assign, reply_text,
    with_heap, with_reply.
  rewrite Hl. simpl.
  destruct (resolve_multiplier t) as [m|e]; [|reflexivity].
  destruct (pips (StopLoss t) (Entry t) m) as [p|e]; [|reflexivity].
  destruct (position_size balance (RiskFactor t) p) as [ps|e]; [|reflexivity].
  simpl.
  destruct (take_profit_pips (TP t) (Entry t) m) as [tps|e]; [|reflexivity].
  rewrite (list_lookup_insert_eq (heap w) l _ Hlt). simpl.
  now destruct (CreateTable (set_PositionSize ps t) balance p tps).
Qed.

Lemma GetTradeInformation_early_raise l t balance w e :
  heap w !! l = Some t ->
  risk_error t balance = Some e ->
  GetTradeInformation (Some l) balance w = (Raise e, w).
Proof.
  intros Hl He. rewrite (GetTradeInformation_run l t balance w Hl).
  unfold risk_error in He.
  destruct (resolve_multiplier t) as [m|e1]; [|congruence].
  destruct (pips (StopLoss t) (Entry t) m) as [p|e2]; [|congruence].
  destruct (position_size balance (RiskFactor t) p) as [ps|e3]; congruence.
Qed.

(** ** ConnectMetaTrader *)

Section Connection.

Variable cfg : Config.
Variable gw : Gateway.

Lemma connect_account_run (w : World) :
  exists cs r,
    connect_account gw w = (r, with_calls cs w) /\
    forallb is_setup_call cs = true.
Proof.
  unfold connect_account, mbind, M_bind, await, mret, M_ret, with_calls.
  destruct (account_state gw (calls w)) as [st|e].
  2:{ exists [get_account], (Raise e). now split. }
  destruct (negb (Str.mem st ["DEPLOYING"; "DEPLOYED"])).
  - cbn [calls heap user_data_trade replies].
    destruct (command gw (calls w ++ [get_account]) deploy) as [[]|e].
    2:{ exists [get_account; deploy], (Raise e).
        rewrite <- !app_assoc. now split. }
    cbn [calls heap user_data_trade replies].
    destruct (command gw _ wait_connected) as [[]|e].
    2:{ exists [get_account; deploy; wait_connected], (Raise e).
        rewrite <- !app_assoc. now split. }
    cbn [calls heap user_data_trade replies].
    destruct (command gw _ connect) as [[]|e].
    2:{ exists [get_account; deploy; wait_connected; connect], (Raise e).
        rewrite <- !app_assoc. now split. }
    cbn [calls heap user_data_trade replies].
    destruct (command gw _ wait_synchronized) as [[]|e].
    2:{ exists [get_account; deploy; wait_connected; connect; wait_synchronized],
          (Raise e).
        rewrite <- !app_assoc. now split. }
    cbn [calls heap user_data_trade replies].
    eexists [get_account; deploy; wait_connected; connect; wait_synchronized;
             get_account_information], _.
    rewrite <- !app_assoc. now split.
  - cbn [calls heap user_data_trade replies].
    destruct (command gw _ wait_connected) as [[]|e].
    2:{ exists [get_account; wait_connected], (Raise e).
        rewrite <- !app_assoc. now split. }
    cbn [calls heap user_data_trade replies].
    destruct (command gw _ connect) as [[]|e].
    2:{ exists [get_account; wait_connected; connect], (Raise e).
        rewrite <- !app_assoc. now split. }
    cbn [calls heap user_data_trade replies].
    destruct (command gw _ wait_synchronized) as [[]|e].
    2:{ exists [get_account; wait_connected; connect; wait_synchronized],
          (Raise e).
        rewrite <- !app_assoc. now split. }
    cbn [calls heap user_data_trade replies].
    eexists [get_account; wait_connected; connect; wait_synchronized;
             get_account_information], _.
    rewrite <- !app_assoc. now split.
Qed.

Lemma resolve_entry_not_NOW (l : loc) (t : Trade) (w : World) :
  heap w !! l = Some t ->
  is_NOW (Entry t) = false ->
  resolve_entry gw (Some l) w = (Ok tt, w).
Proof.
  intros Hl Hnow. unfold resolve_entry, deref, mbind, M_bind.
  rewrite Hl. cbn [of_option]. now rewrite Hnow.
Qed.

(** When the risk calculation is bound to fail on a trade whose entry is
    not the marker, ConnectMetaTrader asks no price, places no order, sends
    no report and leaves the trade as it was. *)
Lemma ConnectMetaTrader_risk_failure (l : loc) (t : Trade)
  (enterTrade : bool) (w : World) :
  heap w !! l = Some t ->
  is_NOW (Entry t) = false ->
  (forall balance, exists e, risk_error t balance = Some e) ->
  exists cs rs,
    ConnectMetaTrader cfg gw (Some l) enterTrade w
    = (Ok tt, with_replies rs (with_calls cs w)) /\
    forallb is_setup_call cs = true /\
    forallb is_report rs = false /\
    (rs = [UnauthorizedAccount] \/
     exists e, last rs = Some (ConnectionIssue e)).
Proof.
  intros Hl Hnow Hrisk.
  destruct (connect_account_run w) as (cs & r & Hrun & Hcs).
  exists cs.
  unfold ConnectMetaTrader, try_except, connect_and_trade.
  unfold mbind at 1. unfold M_bind. rewrite Hrun.
  destruct r as [info|e].
  2:{ exists [ConnectionIssue e]. repeat split; eauto. }
  unfold mbind at 1. unfold M_bind, lift.
  destruct allowed_account_number as [allowed|e].
  2:{ exists [ConnectionIssue e]. repeat split; eauto. }
  destruct (negb (login info =? allowed)%Z).
  { exists [UnauthorizedAccount]. repeat split; eauto. }
  destruct (Hrisk (balance info)) as (e & He).
  exists [Connected; ConnectionIssue e].
  unfold mbind, M_bind, reply_text.
  erewrite resolve_entry_not_NOW; [|exact Hl|exact Hnow].
  erewrite GetTradeInformation_early_raise; [|exact Hl|exact He].
  unfold with_replies, with_calls. cbn.
  rewrite <- app_assoc. repeat split; eauto.
Qed.

End Connection.

(** ** The risk calculation: claims *)

Lemma resolve_multiplier_error (t : Trade) (e : exn) :
  resolve_multiplier t = Raise e -> e = ValueError.
Proof.
  rewrite resolve_multiplier_spec.
  destruct (reads_entry_text t); [|discriminate].
  destruct (Str.find_char "."%char (py_str (Entry t))); [discriminate|].
  now intros [= <-].
Qed.

Lemma risk_error_zero_pips (t : Trade) (e sl : Q) (balance : pyfloat) :
  Entry t = VFloat (Finite e) ->
  StopLoss t = Finite sl ->
  (sl == e)%Q ->
  risk_error t balance
  = Some (match resolve_multiplier t with
          | Ok _ => ZeroDivisionError
          | Raise _ => ValueError
          end).
Proof.
  intros He Hsl Heq. unfold risk_error.
  destruct (resolve_multiplier t) as [m|err] eqn:Em.
  - destruct (resolve_multiplier_nonzero t m Em) as [Hm _].
    rewrite He, Hsl, (pips_finite sl e m Hm), (spec_pips_same sl e m Heq).
    now rewrite position_size_zero_pips.
  - now rewrite (resolve_multiplier_error t err Em).
Qed.

(** Claim C1, amended: when the entry equals the stop-loss, nothing
    classifies or rejects the trade before the division.  Once the
    multiplier is resolved the stop-loss distance is 0 pips and the division
    by it raises ZeroDivisionError: no position size is assigned and no
    report is sent.  ConnectMetaTrader catches the error in its outer
    handler and replies with the connection message; it asks no price and
    places no order. *)
Theorem zero_pip_distance_raises (cfg : Config) (gw : Gateway) (l : loc)
  (t : Trade) (e sl : Q) (w : World)
  (Hl : heap w !! l = Some t)
  (He : Entry t = VFloat (Finite e))
  (Hsl : StopLoss t = Finite sl)
  (Hsame : (sl == e)%Q) :
  (forall m balance,
      resolve_multiplier t = Ok m ->
      pips (StopLoss t) (Entry t) m = Ok 0%Z /\
      position_size balance (RiskFactor t) 0 = Raise ZeroDivisionError /\
      GetTradeInformation (Some l) balance w = (Raise ZeroDivisionError, w)) /\
  (forall enterTrade, exists cs rs,
      ConnectMetaTrader cfg gw (Some l) enterTrade w
      = (Ok tt, with_replies rs (with_calls cs w)) /\
      forallb is_setup_call cs = true /\
      forallb is_report rs = false /\
      (rs = [UnauthorizedAccount] \/
       exists err, last rs = Some (ConnectionIssue err))).
Proof.
  split.
  - intros m balance Hm.
    destruct (resolve_multiplier_nonzero t m Hm) as [Hz _].
    split; [|split].
    + now rewrite He, Hsl, (pips_finite sl e m Hz), (spec_pips_same sl e m Hsame).
    + reflexivity.
    + apply GetTradeInformation_early_raise with (t := t); [assumption|].
      rewrite (risk_error_zero_pips t e sl balance He Hsl Hsame).
      now rewrite Hm.
  - intros enterTrade.
    apply ConnectMetaTrader_risk_failure with (t := t); [assumption| |].
    + now rewrite He.
    + intros balance. eexists.
      apply (risk_error_zero_pips t e sl balance He Hsl Hsame).
Qed.



(** The resolution returns for gold, for silver, and for an entry whose
    text has a decimal point; it raises ValueError on any other trade. *)
Lemma resolve_multiplier_returns (t : Trade) :
  (exists m, resolve_multiplier t = Ok m) <->
  (String.eqb (Symbol t) "XAUUSD" = true \/
   String.eqb (Symbol t) "XAGUSD" = true \/
   Str.find_char "."%char (py_str (Entry t)) <> None).
Proof.
  rewrite resolve_multiplier_spec. unfold reads_entry_text.
  destruct (String.eqb (Symbol t) "XAUUSD"); [split; eauto|].
  destruct (String.eqb (Symbol t) "XAGUSD"); [split; eauto|].
  cbn [negb andb].
  destruct (Str.find_char "."%char (py_str (Entry t))) as [i|].
  - split; [intros _; right; right; discriminate | eauto].
  - split; [intros (m & H); discriminate|].
    intros [H|[H|H]]; try discriminate. now contradiction H.
Qed.

(** Claim C9, amended: for a fixed balance and risk fraction whose product
    is not negative, the position size does not grow with the stop-loss
    pips. *)
Theorem position_size_monotone (b r : Q) (p1 p2 : Z)
  (Hrisk : (0 <= b * r)%Q)
  (Hpos : (0 < p1)%Z)
  (Hle : (p1 <= p2)%Z) :
  exists s1 s2,
    position_size (Finite b) (Finite r) p1 = Ok (Finite s1) /\
    position_size (Finite b) (Finite r) p2 = Ok (Finite s2) /\
    (s2 <= s1)%Q.
Proof.
  destruct (position_size_finite b r p1) as (s1 & H1 & E1); [lia|].
  destruct (position_size_finite b r p2) as (s2 & H2 & E2); [lia|].
  exists s1, s2. split; [assumption|]. split; [assumption|].
  rewrite E1, E2. now apply spec_position_size_mono.
Qed.

(** ** Market orders whose entry is not the marker *)

Lemma risk_error_str_entry (t : Trade) (s : string) (balance : pyfloat) :
  Entry t = VStr s ->
  risk_error t balance
  = Some (match resolve_multiplier t with
          | Ok _ => TypeError
          | Raise _ => ValueError
          end).
Proof.
  intros He. unfold risk_error.
  destruct (resolve_multiplier t) as [m|err] eqn:Em.
  - now rewrite He, pips_str.
  - now rewrite (resolve_multiplier_error t err Em).
Qed.

Lemma is_NOW_false (s : string) : s <> "NOW" -> is_NOW (VStr s) = false.
Proof. intros H. unfold is_NOW. now apply String.eqb_neq. Qed.

(** Claim C10: a market order whose entry token is not the literal NOW
    keeps the token as text; ConnectMetaTrader then asks no price, and the
    risk calculation raises TypeError (at the subtraction) or ValueError (at
    the search for the decimal point) and sends no report. *)
Theorem market_entry_other_than_NOW (cfg : Config) (gw : Gateway)
  (signal tok : string) (t : Trade)
  (Hparse : ParseSignal cfg signal = Ok (Some t))
  (Hmarket : is_market (OrderType t) = true)
  (Htok : entry_token signal = Ok tok)
  (Hnot : tok <> "NOW") :
  Entry t = VStr tok /\
  forall (w : World) (l : loc),
    heap w !! l = Some t ->
    (forall balance, exists e,
        (e = TypeError \/ e = ValueError) /\
        GetTradeInformation (Some l) balance w = (Raise e, w)) /\
    (forall enterTrade, exists cs rs,
        ConnectMetaTrader cfg gw (Some l) enterTrade w
        = (Ok tt, with_replies rs (with_calls cs w)) /\
        forallb is_setup_call cs = true /\
        forallb is_report rs = false).
Proof.
  assert (He : Entry t = VStr tok).
  { apply ParseSignal_Some in Hparse
      as (_ & _ & tok1 & _ & _ & _ & _ & _ & Htok1 & He & _).
    rewrite Hmarket in He. congruence. }
  split; [assumption|].
  intros w l Hl. split.
  - intros balance. eexists. split.
    2:{ apply GetTradeInformation_early_raise with (t := t); [assumption|].
        apply (risk_error_str_entry t tok balance He). }
    destruct (resolve_multiplier t); auto.
  - intros enterTrade.
    destruct (ConnectMetaTrader_risk_failure cfg gw l t enterTrade w Hl)
      as (cs & rs & Hrun & Hcs & Hrs & _).
    + rewrite He. now apply is_NOW_false.
    + intros balance. eexists. apply (risk_error_str_entry t tok balance He).
    + eauto.
Qed.

(** ** Order placement *)

Lemma with_calls_nil (w : World) : with_calls [] w = w.
Proof. destruct w. unfold with_calls. cbn. now rewrite app_nil_r. Qed.

Lemma with_calls_app (cs1 cs2 : list Call) (w : World) :
  with_calls cs2 (with_calls cs1 w) = with_calls (cs1 ++ cs2) w.
Proof. unfold with_calls. cbn. now rewrite app_assoc. Qed.

Section Placement.

Variable gw : Gateway.
Variable t : Trade.
Variable x volume : pyfloat.
Hypothesis Hsize : PositionSize t = Some x.
Hypothesis Hvolume :
  Float.div x (Float.of_Z (Z.of_nat (length (TP t)))) = Ok volume.

Lemma place_legs_step (takeProfit : pyfloat) (rest : list pyfloat)
  (result : option string) (w : World) :
  place_legs gw t (takeProfit :: rest) result w =
  let c := order_call t volume takeProfit in
  match create_order gw (calls w) c with
  | Ok r => place_legs gw t rest (Some r) (with_calls [c] w)
  | Raise e => (Raise e, with_calls [c] w)
  end.
Proof.
  cbn [place_legs]. unfold mbind, M_bind, lift, position_size_of.
  rewrite Hsize. cbn [of_option]. rewrite Hvolume.
  unfold await, with_calls.
  now destruct (create_order gw (calls w) (order_call t volume takeProfit)).
Qed.

(** The loop places the legs in order and stops at the first call that
    raises. *)
Lemma place_legs_run (legs : list pyfloat) :
  forall (result : option string) (w : World),
    (exists r,
        place_legs gw t legs result w
        = (Ok r, with_calls (map (order_call t volume) legs) w) /\
        (legs <> [] -> r <> None)) \/
    (exists placed failed rest e,
        legs = (placed ++ failed :: rest)%list /\
        create_order gw (calls w ++ map (order_call t volume) placed)%list
                     (order_call t volume failed) = Raise e /\
        place_legs gw t legs result w
        = (Raise e,
           with_calls (map (order_call t volume) (placed ++ [failed])%list) w)).
Proof.
  induction legs as [|takeProfit rest IH]; intros result w.
  - left. exists result. cbn. rewrite with_calls_nil. now split.
  - rewrite place_legs_step. cbv zeta.
    destruct (create_order gw (calls w) (order_call t volume takeProfit))
      as [r|e] eqn:Ec.
    + destruct (IH (Some r) (with_calls [order_call t volume takeProfit] w))
        as [(r' & Hrun & Hr') | (placed & failed & rest' & e & Hlegs & Hfail & Hrun)].
      * left. exists r'. rewrite Hrun, with_calls_app. split; [reflexivity|].
        intros _. destruct rest as [|tp2 rest2].
        -- cbn in Hrun. rewrite with_calls_nil in Hrun.
           injection Hrun as <-. discriminate.
        -- now apply Hr'.
      * right. exists (takeProfit :: placed), failed, rest', e.
        split; [now rewrite Hlegs|]. split.
        -- cbn [with_calls calls] in Hfail. cbn [map]. 
           now rewrite <- app_assoc in Hfail.
        -- rewrite Hrun, with_calls_app. reflexivity.
    + right. exists [], takeProfit, rest, e.
      split; [reflexivity|]. split; [|reflexivity].
      cbn [map]. now rewrite app_nil_r.
Qed.

End Placement.

Lemma enter_trade_run (gw : Gateway) (l : loc) (t : Trade) (w : World) :
  heap w !! l = Some t ->
  enter_trade gw (Some l) w =
  match place_legs gw t (TP t) None w with
  | (Ok (Some _), w') => (Ok tt, with_replies [TradeEntered] w')
  | (Ok None, w') => (Raise NameError, with_replies [TradeEntered] w')
  | (Raise e, w') => (Raise e, w')
  end.
Proof.
  intros Hl. unfold enter_trade, mbind, M_bind, deref, reply_text, raise,
    mret, M_ret, with_replies.
  rewrite Hl. cbn [of_option].
  destruct (place_legs gw t (TP t) None w) as [[[s|]|e] w']; reflexivity.
Qed.

(** Claim C5, amended: one order of size positionSize / numberOfLegs is
    issued per take-profit leg, in the order of the legs and through the
    creation call of the order type, until a call raises.  One handler
    around the whole loop catches the error and reports it: the legs after
    the failing one are not attempted, and the orders already placed
    stand. *)
Theorem placement_stops_at_first_failure (gw : Gateway) (l : loc)
  (t : Trade) (x : pyfloat) (w : World)
  (Hl : heap w !! l = Some t)
  (Hsize : PositionSize t = Some x)
  (Hlegs : TP t <> []) :
  exists volume,
    Float.div x (Float.of_Z (Z.of_nat (length (TP t)))) = Ok volume /\
    let order := order_call t volume in
    let placement :=
      try_except (enter_trade gw (Some l))
                 (fun error => reply_text (TradeIssue error)) in
    placement w
    = (Ok tt, with_replies [TradeEntered] (with_calls (map order (TP t)) w))
    \/
    exists placed failed rest e,
      TP t = (placed ++ failed :: rest)%list /\
      create_order gw (calls w ++ map order placed)%list (order failed) = Raise e /\
      placement w
      = (Ok tt, with_replies [TradeIssue e]
                  (with_calls (map order (placed ++ [failed])%list) w)).
Proof.
  assert (Hdiv : exists volume,
             Float.div x (Float.of_Z (Z.of_nat (length (TP t)))) = Ok volume).
  { unfold Float.div, Float.of_Z.
    rewrite is_zero_inject_Z by (destruct (TP t); [easy | cbn; lia]).
    destruct x; eauto. }
  destruct Hdiv as (volume & Hvolume).
  exists volume. split; [assumption|]. cbv zeta.
  unfold try_except. rewrite (enter_trade_run gw l t w Hl).
  destruct (place_legs_run gw t x volume Hsize Hvolume (TP t) None w)
    as [(r & Hrun & Hr) | (placed & failed & rest & e & Hsplit & Hfail & Hrun)].
  - left. rewrite Hrun.
    destruct r as [s|]; [|now contradiction (Hr Hlegs)].
    reflexivity.
  - right. exists placed, failed, rest, e.
    split; [assumption|]. split; [assumption|].
    now rewrite Hrun.
Qed.

(** ** Rejected signals: the cases the specification names *)

(** A signal of fewer than four lines is rejected: the stop-loss or the
    take-profit line is looked up and is not there. *)
Lemma short_signal_rejected (cfg : Config) (signal : string) :
  (length (signal_lines signal) < 4)%nat -> rejected (ParseSignal cfg signal).
Proof.
  intros Hshort.
  destruct (ParseSignal cfg signal) as [[t|]|e] eqn:E; cbn; auto.
  apply ParseSignal_Some in E
    as (_ & _ & _ & _ & _ & _ & _ & _ & _ & _ & _ & (tp1 & Htp1 & _) & _).
  unfold float_at, Str.item in Htp1.
  destruct (signal_lines signal !! 3%nat) as [line3|] eqn:E3; [|discriminate].
  apply lookup_lt_Some in E3. lia.
Qed.

(** A symbol outside the list is rejected. *)
Lemma unknown_symbol_rejected (cfg : Config) (signal line0 tok : string) :
  signal_lines signal !! 0%nat = Some line0 ->
  Str.last_token line0 = Ok tok ->
  Str.mem (Str.upper tok) SYMBOLS = false ->
  rejected (ParseSignal cfg signal).
Proof.
  intros H0 Htok Hmem.
  destruct (ParseSignal cfg signal) as [[t|]|e] eqn:E; cbn; auto.
  apply ParseSignal_Some in E
    as (l0 & tok0 & _ & H0' & _ & Htok0 & Hsym & Hin & _).
  rewrite H0 in H0'. injection H0' as <-.
  rewrite Htok in Htok0. injection Htok0 as <-.
  rewrite Hsym in Hin. congruence.
Qed.

(** A stop-loss or first take-profit token that is not a float literal is
    rejected. *)
Lemma bad_number_rejected (cfg : Config) (signal : string) (i : nat) (e : exn) :
  (i = 2 \/ i = 3)%nat ->
  float_at (signal_lines signal) i = Raise e ->
  rejected (ParseSignal cfg signal).
Proof.
  intros Hi Hbad.
  destruct (ParseSignal cfg signal) as [[t|]|e'] eqn:E; cbn; auto.
  apply ParseSignal_Some in E
    as (_ & _ & _ & _ & _ & _ & _ & _ & _ & _ & Hsl & (tp1 & Htp1 & _) & _).
  destruct Hi as [-> | ->]; congruence.
Qed.

(** ** The entry marker and the shared dictionary *)

(** On a market buy whose entry is the marker, the price that is fetched is
    written into the dictionary itself: whoever holds the reference sees a
    float from then on, and [resolve_entry_not_NOW] applies. *)
Lemma resolve_entry_overwrites_marker (gw : Gateway) (l : loc) (t : Trade)
  (price : Price) (w : World) :
  heap w !! l = Some t ->
  Entry t = VStr "NOW" ->
  OrderType t = Buy ->
  symbol_price gw (calls w) (Symbol t) = Ok price ->
  resolve_entry gw (Some l) w
  = (Ok tt,
     with_heap (<[l := set_Entry (VFloat (bid price)) t]> (heap w))
               (with_calls [get_symbol_price (Symbol t)] w)).
Proof.
  intros Hl He Hot Hprice.
  unfold resolve_entry, mbind, M_bind, deref, await, assign.
  rewrite Hl. cbn [of_option]. rewrite He. cbn [is_NOW String.eqb].
  cbn. rewrite Hprice, Hot. cbn. now rewrite Hl.
Qed.

(** ** Scenarios *)

(** Claim C1, as stated, fails: the limit example with the stop-loss at the
    entry is parsed and kept, the division by 0 pips is carried out and
    raises ZeroDivisionError, and the conversation reports it as a
    connection issue. *)
Lemma zero_pip_distance_divides :
  ParseSignal config_2pct zero_pip_signal = Ok (Some zero_pip_trade) /\
  resolve_multiplier zero_pip_trade = Ok (1 # 10000) /\
  pips (StopLoss zero_pip_trade) (Entry zero_pip_trade) (1 # 10000) = Ok 0%Z /\
  GetTradeInformation (Some 0%nat) (Finite 10000) (world_of zero_pip_trade)
  = (Raise ZeroDivisionError, world_of zero_pip_trade) /\
  replies (snd (converse config_2pct gateway_moving END
                  [from_trader "/trade"; from_trader zero_pip_signal]
                  empty_world))
  = [EnterTradeToPlace; TradeParsed; Connected;
     ConnectionIssue ZeroDivisionError].
Proof. repeat split; vm_compute; reflexivity. Qed.

Lemma zero_pip_distance_raises_witness :
  heap (world_of zero_pip_trade) !! 0%nat = Some zero_pip_trade /\
  GetTradeInformation (Some 0%nat) (Finite 10000) (world_of zero_pip_trade)
  = (Raise ZeroDivisionError, world_of zero_pip_trade).
Proof.
  split; [reflexivity|].
  destruct (zero_pip_distance_raises config_2pct gateway_moving 0%nat
              zero_pip_trade (1431 # 1250) (1431 # 1250)
              (world_of zero_pip_trade) eq_refl eq_refl eq_refl (Qeq_refl _))
    as [Hrisk _].
  apply (Hrisk (1 # 10000)). vm_compute; reflexivity.
Defined.




(** Claim C5, as stated, fails: with two take-profit legs and a gateway
    that raises on the first order, the second order is never issued. *)
Lemma first_leg_failure_aborts_second :
  let w := snd (converse config_2pct gateway_first_order_fails END
                  [from_trader "/trade"; from_trader market_signal]
                  empty_world) in
  option_map (fun t => length (TP t)) (heap w !! 0%nat) = Some 2%nat /\
  filter is_order_call (calls w)
  = [create_market_buy_order "GBPUSD" (Finite (1 # 200))
       (Finite (3573 # 3125)) (Finite (12893 # 10000))] /\
  last (replies w)
  = Some (TradeIssue (GatewayError "TRADE_RETCODE_INVALID_STOPS")).
Proof. repeat split; vm_compute; reflexivity. Qed.

Lemma placement_stops_at_first_failure_witness :
  heap (world_of sized_market_trade) !! 0%nat = Some sized_market_trade /\
  PositionSize sized_market_trade = Some (Finite (1 # 100)) /\
  TP sized_market_trade <> [] /\
  exists volume,
    Float.div (Finite (1 # 100)) (Float.of_Z 2) = Ok volume.
Proof.
  split; [reflexivity|]. split; [reflexivity|].
  assert (Hlegs : TP sized_market_trade <> []) by discriminate.
  split; [exact Hlegs|].
  destruct (placement_stops_at_first_failure gateway_first_order_fails 0%nat
              sized_market_trade (Finite (1 # 100))
              (world_of sized_market_trade) eq_refl eq_refl Hlegs)
    as (volume & Hvolume & _).
  exists volume. exact Hvolume.
Defined.

(** Claim C6 fails on the code: /calculate on the market example, then
    /yes.  The balance is read again, the price is not: the marker was
    overwritten in the shared dictionary when the risk was calculated, so
    the orders are sized from the bid of 1.25 read then, although the
    gateway would now answer 1.30. *)
Theorem yes_does_not_refetch_price :
  let run := converse config_2pct gateway_moving END
               [from_trader "/calculate"; from_trader market_signal;
                from_trader "/yes"] empty_world in
  fst run = Ok END /\
  user_data_trade (snd run) = None /\
  calls (snd run)
  = [get_account; wait_connected; connect; wait_synchronized;
     get_account_information; get_symbol_price "GBPUSD";
     get_account; wait_connected; connect; wait_synchronized;
     get_account_information;
     create_market_buy_order "GBPUSD" (Finite (1 # 200))
       (Finite (3573 # 3125)) (Finite (12893 # 10000));
     create_market_buy_order "GBPUSD" (Finite (1 # 200))
       (Finite (3573 # 3125)) (Finite (25969 # 20000))] /\
  option_map Entry (heap (snd run) !! 0%nat) = Some (VFloat (Finite (5 # 4))) /\
  option_map bid
    (match symbol_price gateway_moving (calls (snd run)) "GBPUSD" with
     | Ok price => Some price
     | Raise _ => None
     end)
  = Some (Finite (13 # 10)).
Proof. repeat split; vm_compute; reflexivity. Qed.

(** Claim C7, as stated, fails: a limit order with a negative entry is
    accepted. *)
Lemma negative_entry_accepted :
  exists t,
    ParseSignal config_2pct negative_entry_signal = Ok (Some t) /\
    OrderType t = BuyLimit /\
    Entry t = VFloat (Finite (- 1431 # 1250)) /\
    (- 1431 # 1250 < 0)%Q.
Proof.
  eexists. split; [vm_compute; reflexivity|].
  repeat split.
Qed.

Lemma pending_entry_is_a_float_literal_witness :
  ParseSignal config_2pct limit_signal = Ok (Some limit_trade) /\
  exists tok x,
    entry_token limit_signal = Ok tok /\
    Literal.floatvalue tok = Some x /\
    Entry limit_trade = VFloat x.
Proof.
  assert (H : ParseSignal config_2pct limit_signal = Ok (Some limit_trade))
    by (vm_compute; reflexivity).
  split; [exact H|].
  apply (pending_entry_is_a_float_literal config_2pct limit_signal
           limit_trade H eq_refl).
Defined.

Lemma malformed_signal_reprompts_witness :
  user_data_trade empty_world = None /\
  rejected (ParseSignal config_2pct missing_stop_loss_signal) /\
  exists error,
    PlaceTrade config_2pct gateway_moving
      (from_trader missing_stop_loss_signal) empty_world
    = (Ok TRADE, mkWorld [] None [ParseError error] []).
Proof.
  assert (H : rejected (ParseSignal config_2pct
                          (text (from_trader missing_stop_loss_signal))))
    by (vm_compute; exact I).
  split; [reflexivity|]. split; [exact H|].
  destruct (malformed_signal_reprompts config_2pct gateway_moving
              (from_trader missing_stop_loss_signal) empty_world eq_refl H)
    as (error & HP & _).
  exists error. exact HP.
Defined.

(** Claim C9, as stated, fails: with a balance of -1000 the position size
    is -2 at 1 pip and -1 at 2 pips. *)
Lemma negative_balance_grows :
  position_size (Finite (- 1000)) (Finite (1 # 50)) 1 = Ok (Finite (- 2)) /\
  position_size (Finite (- 1000)) (Finite (1 # 50)) 2 = Ok (Finite (- 1)) /\
  ~ (- 1 <= - 2)%Q.
Proof.
  split; [vm_compute; reflexivity|]. split; [vm_compute; reflexivity|].
  intros H. vm_compute in H. now apply H.
Qed.

Lemma position_size_monotone_witness :
  (0 <= 10000 * (1 # 50))%Q /\ (0 < 14)%Z /\ (14 <= 15)%Z /\
  exists s1 s2,
    position_size (Finite 10000) (Finite (1 # 50)) 14 = Ok (Finite s1) /\
    position_size (Finite 10000) (Finite (1 # 50)) 15 = Ok (Finite s2) /\
    (s2 <= s1)%Q.
Proof.
  assert (H0 : (0 <= 10000 * (1 # 50))%Q) by (vm_compute; discriminate).
  split; [exact H0|]. split; [lia|]. split; [lia|].
  apply (position_size_monotone 10000 (1 # 50) 14 15 H0); lia.
Defined.

Lemma market_entry_other_than_NOW_witness :
  ParseSignal config_2pct lowercase_now_signal = Ok (Some lowercase_now_trade) /\
  entry_token lowercase_now_signal = Ok "now" /\
  Entry lowercase_now_trade = VStr "now".
Proof.
  assert (H : ParseSignal config_2pct lowercase_now_signal
              = Ok (Some lowercase_now_trade)) by (vm_compute; reflexivity).
  assert (Ht : entry_token lowercase_now_signal = Ok "now")
    by (vm_compute; reflexivity).
  split; [exact H|]. split; [exact Ht|].
  apply (market_entry_other_than_NOW config_2pct gateway_moving
           lowercase_now_signal "now" lowercase_now_trade H eq_refl Ht).
  discriminate.
Defined.

(** * Further properties of the program *)

(** ** Frames *)

Lemma same_signal_refl (t : Trade) : same_signal t t.
Proof. now repeat split. Qed.

Lemma same_signal_trans (t1 t2 t3 : Trade) :
  same_signal t1 t2 -> same_signal t2 t3 -> same_signal t1 t3.
Proof.
  intros (A1 & A2 & A3 & A4 & A5) (B1 & B2 & B3 & B4 & B5).
  repeat split; congruence.
Qed.

Lemma after_refl (allowed : Call -> bool) (w : World) : after allowed w w.
Proof.
  split; try reflexivity.
  - intros l t H. exists t. split; [assumption | apply same_signal_refl].
  - exists []. now rewrite app_nil_r.
  - exists []. now rewrite app_nil_r.
Qed.

Lemma after_trans (allowed : Call -> bool) (w1 w2 w3 : World) :
  after allowed w1 w2 -> after allowed w2 w3 -> after allowed w1 w3.
Proof.
  intros [S1 H1 T1 (rs1 & R1) (cs1 & C1 & A1)]
         [S2 H2 T2 (rs2 & R2) (cs2 & C2 & A2)].
  split.
  - congruence.
  - congruence.
  - intros l t Hl. destruct (T1 l t Hl) as (t2 & Hl2 & E12).
    destruct (T2 l t2 Hl2) as (t3 & Hl3 & E23).
    exists t3. split; [assumption | eapply same_signal_trans; eauto].
  - exists (rs1 ++ rs2)%list. rewrite R2, R1. now rewrite app_assoc.
  - exists (cs1 ++ cs2)%list. rewrite C2, C1. split; [now rewrite app_assoc|].
    rewrite forallb_app. now rewrite A1, A2.
Qed.

Lemma after_weaken (allowed allowed' : Call -> bool) (w w' : World) :
  (forall c, allowed c = true -> allowed' c = true) ->
  after allowed w w' -> after allowed' w w'.
Proof.
  intros Himp [S H T R (cs & C & A)]. split; try assumption.
  exists cs. split; [assumption|].
  apply forallb_forall. intros c Hc.
  apply Himp. rewrite forallb_forall in A. now apply A.
Qed.

Section Confined.

Context {A B : Type}.
Variable allowed : Call -> bool.

Lemma confined_ret (a : A) : confined allowed (mret a : M A).
Proof. intros w. apply after_refl. Qed.

Lemma confined_lift (r : Result A) : confined allowed (lift r).
Proof. intros w. apply after_refl. Qed.

Lemma confined_raise (e : exn) : confined allowed (raise e : M A).
Proof. intros w. apply after_refl. Qed.

Lemma confined_bind (m : M A) (k : A -> M B) :
  confined allowed m -> (forall a, confined allowed (k a)) ->
  confined allowed (m ≫= k).
Proof.
  intros Hm Hk w. unfold mbind, M_bind.
  specialize (Hm w). destruct (m w) as [[a|e] w1]; cbn [snd] in *.
  - eapply after_trans; [exact Hm | apply Hk].
  - exact Hm.
Qed.

Lemma confined_try_except (body : M A) (handler : exn -> M A) :
  confined allowed body -> (forall e, confined allowed (handler e)) ->
  confined allowed (try_except body handler).
Proof.
  intros Hb Hh w. unfold try_except.
  specialize (Hb w). destruct (body w) as [[a|e] w1]; cbn [snd] in *.
  - exact Hb.
  - eapply after_trans; [exact Hb | apply Hh].
Qed.

End Confined.

Lemma confined_weaken {A} (allowed allowed' : Call -> bool) (m : M A) :
  (forall c, allowed c = true -> allowed' c = true) ->
  confined allowed m -> confined allowed' m.
Proof. intros Himp Hm w. eapply after_weaken; eauto. Qed.

Lemma confined_reply (allowed : Call -> bool) (r : Reply) :
  confined allowed (reply_text r).
Proof.
  intros w. split; cbn; try reflexivity.
  - intros l t H. exists t. split; [assumption | apply same_signal_refl].
  - now exists [r].
  - exists []. now rewrite app_nil_r.
Qed.

Lemma confined_await {A} (allowed : Call -> bool) (c : Call)
  (answer : list Call -> Result A) :
  allowed c = true -> confined allowed (await c answer).
Proof.
  intros Hc w. split; cbn; try reflexivity.
  - intros l t H. exists t. split; [assumption | apply same_signal_refl].
  - exists []. now rewrite app_nil_r.
  - exists [c]. cbn. now rewrite Hc.
Qed.

Lemma confined_deref (allowed : Call -> bool) (trade : option loc) :
  confined allowed (deref trade).
Proof. intros w. unfold deref. destruct trade; apply after_refl. Qed.

Lemma confined_assign (allowed : Call -> bool) (trade : option loc)
  (f : Trade -> Trade) :
  (forall t, same_signal t (f t)) -> confined allowed (assign trade f).
Proof.
  intros Hf w. unfold assign. destruct trade as [l|]; [|apply after_refl].
  destruct (heap w !! l) as [t|] eqn:Hl; [|apply after_refl].
  cbn [snd]. split; cbn.
  - reflexivity.
  - apply length_insert.
  - intros l' t' H'. destruct (decide (l = l')) as [<-|Hne].
    + exists (f t). split.
      * apply list_lookup_insert_eq. eapply lookup_lt_Some; eauto.
      * assert (E : Some t = Some t') by (rewrite <- Hl; exact H').
        injection E as <-. apply Hf.
    + exists t'. split; [|apply same_signal_refl].
      now rewrite list_lookup_insert_ne.
  - exists []. now rewrite app_nil_r.
  - exists []. now rewrite app_nil_r.
Qed.

Lemma same_signal_set_Entry (v : value) (t : Trade) :
  same_signal t (set_Entry v t).
Proof. now repeat split. Qed.

Lemma same_signal_set_PositionSize (x : pyfloat) (t : Trade) :
  same_signal t (set_PositionSize x t).
Proof. now repeat split. Qed.

(** ** The effects of the program's parts *)

Ltac confine :=
  repeat first
    [ apply confined_bind; [|intros ?]
    | apply confined_lift
    | apply confined_ret
    | apply confined_raise
    | apply confined_deref
    | apply confined_reply
    | apply confined_assign; intros ?;
      first [apply same_signal_set_PositionSize | apply same_signal_set_Entry]
    | apply confined_await; reflexivity ].

Lemma order_call_is_order (t : Trade) (volume takeProfit : pyfloat) :
  is_order_call (order_call t volume takeProfit) = true.
Proof. unfold order_call. now destruct (OrderType t). Qed.

Section Effects.

Variable cfg : Config.
Variable gw : Gateway.

Lemma GetTradeInformation_confined (trade : option loc) (balance : pyfloat) :
  confined no_call (GetTradeInformation trade balance).
Proof. unfold GetTradeInformation. confine. Qed.

Lemma place_legs_confined (t : Trade) (legs : list pyfloat) :
  forall result, confined is_order_call (place_legs gw t legs result).
Proof.
  induction legs as [|takeProfit rest IH]; intros result; cbn [place_legs].
  - apply confined_ret.
  - confine.
    + apply confined_await, order_call_is_order.
    + apply IH.
Qed.

Lemma enter_trade_confined (trade : option loc) :
  confined is_order_call (enter_trade gw trade).
Proof.
  unfold enter_trade. confine.
  - apply place_legs_confined.
  - destruct a0; confine.
Qed.

Lemma connect_account_confined : confined is_setup_call (connect_account gw).
Proof.
  unfold connect_account. confine.
  destruct (negb _); confine.
Qed.

Lemma resolve_entry_confined (trade : option loc) :
  confined is_price_call (resolve_entry gw trade).
Proof.
  unfold resolve_entry. confine.
  destruct (is_NOW _); confine.
  destruct (OrderType a); confine.
Qed.

Lemma connect_and_trade_confined (trade : option loc) (enterTrade : bool) :
  confined (if enterTrade then any_call else not_an_order)
           (connect_and_trade cfg gw trade enterTrade).
Proof.
  unfold connect_and_trade.
  apply confined_bind.
  { eapply confined_weaken; [|apply connect_account_confined].
    intros c Hc. destruct enterTrade; [reflexivity|].
    unfold not_an_order, is_order_call. now rewrite Hc. }
  intros info. apply confined_bind; [apply confined_lift|]. intros allowed.
  destruct (negb _); [apply confined_reply|].
  apply confined_bind; [apply confined_reply|]. intros _.
  apply confined_bind.
  { eapply confined_weaken; [|apply resolve_entry_confined].
    intros c Hc. destruct enterTrade; [reflexivity|].
    unfold not_an_order, is_order_call. rewrite Hc.
    now rewrite andb_false_r. }
  intros _. apply confined_bind.
  { eapply confined_weaken; [|apply GetTradeInformation_confined].
    discriminate. }
  intros _. destruct enterTrade; [|apply confined_ret].
  apply confined_bind; [apply confined_reply|]. intros _.
  apply confined_try_except.
  - eapply confined_weaken; [|apply enter_trade_confined]. reflexivity.
  - intros e. apply confined_reply.
Qed.

Lemma ConnectMetaTrader_confined (trade : option loc) (enterTrade : bool) :
  confined (if enterTrade then any_call else not_an_order)
           (ConnectMetaTrader cfg gw trade enterTrade).
Proof.
  unfold ConnectMetaTrader. apply confined_try_except.
  - apply connect_and_trade_confined.
  - intros e. apply confined_reply.
Qed.

Lemma ConnectMetaTrader_returns (trade : option loc) (enterTrade : bool)
  (w : World) :
  fst (ConnectMetaTrader cfg gw trade enterTrade w) = Ok tt.
Proof.
  unfold ConnectMetaTrader, try_except.
  destruct (connect_and_trade cfg gw trade enterTrade w) as [[[]|e] w1];
    reflexivity.
Qed.

End Effects.

(** ** The parser *)

(** X1: an accepted signal has at least four lines; its symbol is one of
    SYMBOLS; it has two take-profits when the signal has more than four
    lines and one otherwise; its entry is text exactly for Buy and Sell; its
    risk factor is the configured one and it has no position size yet. *)
Theorem accepted_signal_shape (cfg : Config) (signal : string) (t : Trade)
  (Hparse : ParseSignal cfg signal = Ok (Some t)) :
  Str.mem (Symbol t) SYMBOLS = true /\
  length (TP t) = (if (4 <? length (signal_lines signal))%nat then 2 else 1)%nat /\
  (4 <= length (signal_lines signal))%nat /\
  (is_market (OrderType t) = true <-> exists s, Entry t = VStr s) /\
  RiskFactor t = RISK_FACTOR cfg /\
  PositionSize t = None.
Proof.
  apply ParseSignal_Some in Hparse
    as (line0 & tok0 & tok1 & H0 & Hc & Ht0 & Hsym & Hmem & Htok1 & He & Hsl
        & (tp1 & Htp1 & Htp) & Hr & Hp).
  split; [assumption|]. split; [|split; [|split; [|split]]]; try assumption.
  - destruct (4 <? length (signal_lines signal))%nat.
    + destruct Htp as (tp2 & _ & ->). reflexivity.
    + now rewrite Htp.
  - unfold float_at, Str.item in Htp1.
    destruct (signal_lines signal !! 3%nat) eqn:E3; [|discriminate].
    apply lookup_lt_Some in E3. lia.
  - destruct (is_market (OrderType t)).
    + split; eauto.
    + destruct He as (x & _ & ->). split; [discriminate|].
      intros (s & Hs). discriminate.
Qed.

Lemma item_take {A} (l : list A) (n i : nat) :
  (i < n)%nat -> Str.item (take n l) i = Str.item l i.
Proof. intros H. unfold Str.item. now rewrite lookup_take_lt. Qed.

Lemma float_at_take (l : list string) (n i : nat) :
  (i < n)%nat -> float_at (take n l) i = float_at l i.
Proof. intros H. unfold float_at. now rewrite item_take. Qed.

Lemma more_than_four_take (l : list string) :
  (4 <? length (take 5 l))%nat = (4 <? length l)%nat.
Proof.
  rewrite length_take.
  destruct (4 <? length l)%nat eqn:E.
  - apply Nat.ltb_lt in E. apply Nat.ltb_lt. lia.
  - apply Nat.ltb_ge in E. apply Nat.ltb_ge. lia.
Qed.

(** The parser as a function of the lines. *)
Lemma ParseSignal_first_five (cfg : Config) (signal : string) :
  ParseSignal cfg signal =
  let signal := first_five signal in
  line0 ← Str.item signal 0;
  match classify line0 with
  | None => Ok None
  | Some orderType =>
      tok ← Str.last_token line0;
      let symbol := Str.upper tok in
      if negb (Str.mem symbol SYMBOLS) then Ok None
      else
        entry ← (if is_market orderType
                 then line1 ← Str.item signal 1;
                      tok1 ← Str.last_token line1;
                      Ok (VStr tok1)
                 else x ← float_at signal 1; Ok (VFloat x));
        stopLoss ← float_at signal 2;
        tp1 ← float_at signal 3;
        tp ← (if (4 <? length signal)%nat
              then tp2 ← float_at signal 4; Ok [tp1; tp2]
              else Ok [tp1]);
        Ok (Some (mkTrade orderType symbol entry stopLoss tp
                          (RISK_FACTOR cfg) None))
  end.
Proof.
  unfold ParseSignal, first_five. cbv zeta.
  rewrite more_than_four_take.
  rewrite !item_take by lia. rewrite !float_at_take by lia.
  reflexivity.
Qed.

(** X2: the parser reads the first five lines only: two signals with the
    same first five lines (after rstrip) parse alike. *)
Theorem lines_after_the_fifth_are_ignored (cfg : Config) (s1 s2 : string)
  (Hsame : first_five s1 = first_five s2) :
  ParseSignal cfg s1 = ParseSignal cfg s2.
Proof. rewrite !ParseSignal_first_five. now rewrite Hsame. Qed.

(** ** The handlers, whatever the gateway answers *)

Lemma after_adds_calls (allowed : Call -> bool) (w w' : World) :
  after allowed w w' -> adds_calls allowed w w'.
Proof. intros [_ _ _ _ H]. exact H. Qed.

Section Flow.

Variable cfg : Config.
Variable gw : Gateway.

(** X3: ConnectMetaTrader lets no exception out.  It keeps the pending
    slot, creates no dictionary, keeps the order type, symbol, stop-loss,
    take-profits and risk factor of every dictionary, and only adds to the
    replies and to the gateway calls. *)
Theorem ConnectMetaTrader_contained (trade : option loc) (enterTrade : bool)
  (w : World) :
  fst (ConnectMetaTrader cfg gw trade enterTrade w) = Ok tt /\
  after any_call w (snd (ConnectMetaTrader cfg gw trade enterTrade w)).
Proof.
  split; [apply ConnectMetaTrader_returns|].
  eapply after_weaken; [|apply ConnectMetaTrader_confined]. reflexivity.
Qed.

(** The three ways through the [if context.user_data['trade'] is None]
    block. *)
Lemma parse_if_needed_run (update : Update) (same : state) (w : World) :
  parse_if_needed cfg update same w =
  match user_data_trade w with
  | Some _ => (Ok None, w)
  | None =>
      match ParseSignal cfg (text update) with
      | Ok (Some t) =>
          (Ok None,
           mkWorld (heap w ++ [t]) (Some (length (heap w)))
                   (replies w ++ [TradeParsed]) (calls w))
      | r => (Ok (Some same), with_replies [ParseError (rejection_error r)] w)
      end
  end.
Proof.
  unfold parse_if_needed, get_user_data_trade, try_except, parse_and_store,
    lift, raise, reply_text, alloc, set_user_data_trade, mbind, M_bind,
    mret, M_ret, with_replies.
  destruct (user_data_trade w) as [l|] eqn:Hslot.
  - now destruct w.
  - destruct (ParseSignal cfg (text update)) as [[t|]|e]; cbn;
      now rewrite ?Hslot.
Qed.

Lemma CalculateTrade_run (update : Update) (w : World) :
  CalculateTrade cfg gw update w =
  match parse_if_needed cfg update CALCULATE w with
  | (Ok (Some s), w1) => (Ok s, w1)
  | (Ok None, w1) =>
      (Ok DECISION,
       with_replies [EnterOrDecline]
         (snd (ConnectMetaTrader cfg gw (user_data_trade w1) false w1)))
  | (Raise e, w1) => (Raise e, w1)
  end.
Proof.
  unfold CalculateTrade. unfold mbind at 1. unfold M_bind.
  destruct (parse_if_needed cfg update CALCULATE w) as [[[s|]|e] w1];
    try reflexivity.
  unfold mbind, M_bind, get_user_data_trade, reply_text, mret, M_ret.
  pose proof (ConnectMetaTrader_returns cfg gw (user_data_trade w1) false w1) as H.
  destruct (ConnectMetaTrader cfg gw (user_data_trade w1) false w1) as [r w2].
  cbn in H. subst r. reflexivity.
Qed.

Lemma PlaceTrade_run (update : Update) (w : World) :
  PlaceTrade cfg gw update w =
  match parse_if_needed cfg update TRADE w with
  | (Ok (Some s), w1) => (Ok s, w1)
  | (Ok None, w1) =>
      let w2 := snd (ConnectMetaTrader cfg gw (user_data_trade w1) true w1) in
      (Ok END, mkWorld (heap w2) None (replies w2) (calls w2))
  | (Raise e, w1) => (Raise e, w1)
  end.
Proof.
  unfold PlaceTrade. unfold mbind at 1. unfold M_bind.
  destruct (parse_if_needed cfg update TRADE w) as [[[s|]|e] w1];
    try reflexivity.
  unfold mbind, M_bind, get_user_data_trade, set_user_data_trade, mret, M_ret.
  pose proof (ConnectMetaTrader_returns cfg gw (user_data_trade w1) true w1) as H.
  destruct (ConnectMetaTrader cfg gw (user_data_trade w1) true w1) as [r w2].
  cbn in H. subst r. reflexivity.
Qed.

Lemma CalculateTrade_calls (update : Update) (w : World) :
  adds_calls not_an_order w (snd (CalculateTrade cfg gw update w)).
Proof.
  rewrite CalculateTrade_run, parse_if_needed_run.
  assert (Hnone : adds_calls not_an_order w w).
  { exists []. now rewrite app_nil_r. }
  assert (Hrun : forall w1, calls w1 = calls w ->
            adds_calls not_an_order w
              (with_replies [EnterOrDecline]
                 (snd (ConnectMetaTrader cfg gw (user_data_trade w1) false w1)))).
  { intros w1 Hc.
    destruct (after_adds_calls _ _ _
                (ConnectMetaTrader_confined cfg gw (user_data_trade w1) false w1))
      as (cs & Hcs & Hno).
    exists cs. cbn. now rewrite Hcs, Hc. }
  destruct (user_data_trade w) as [l|] eqn:Hslot.
  - cbn [snd]. now apply Hrun.
  - destruct (ParseSignal cfg (text update)) as [[t|]|e]; cbn [snd].
    + now apply Hrun.
    + exact Hnone.
    + exact Hnone.
Qed.

(** X4: CalculateTrade never places an order, whatever the text, the
    pending slot and the gateway. *)
Theorem CalculateTrade_places_no_order (update : Update) (w : World) :
  adds_calls not_an_order w (snd (CalculateTrade cfg gw update w)).
Proof. apply CalculateTrade_calls. Qed.

(** X5: when the text is accepted, CalculateTrade ends in DECISION with the
    new dictionary pending and asks whether to enter the trade, and
    PlaceTrade ends the conversation with the slot empty, whatever the
    gateway answers, a failed connection included. *)
Theorem accepted_signal_outcomes (update : Update) (t : Trade) (w : World)
  (Hslot : user_data_trade w = None)
  (Hparse : ParseSignal cfg (text update) = Ok (Some t)) :
  let l := length (heap w) in
  (let run := CalculateTrade cfg gw update w in
   fst run = Ok DECISION /\
   user_data_trade (snd run) = Some l /\
   (exists t', heap (snd run) !! l = Some t' /\ same_signal t t') /\
   last (replies (snd run)) = Some EnterOrDecline) /\
  (let run := PlaceTrade cfg gw update w in
   fst run = Ok END /\
   user_data_trade (snd run) = None /\
   (exists t', heap (snd run) !! l = Some t' /\ same_signal t t')).
Proof.
  cbv zeta.
  set (w1 := mkWorld (heap w ++ [t]) (Some (length (heap w)))
                     (replies w ++ [TradeParsed]) (calls w)).
  assert (Hl : heap w1 !! length (heap w) = Some t).
  { cbn. now rewrite lookup_app_r, Nat.sub_diag by lia. }
  split.
  - rewrite CalculateTrade_run, parse_if_needed_run, Hslot, Hparse.
    fold w1. cbn [fst snd].
    destruct (ConnectMetaTrader_confined cfg gw (user_data_trade w1) false w1)
      as [S _ T _ _].
    split; [reflexivity|]. split; [exact S|]. split; [now apply T|].
    cbn. now rewrite last_snoc.
  - rewrite PlaceTrade_run, parse_if_needed_run, Hslot, Hparse.
    fold w1. cbn [fst snd].
    destruct (ConnectMetaTrader_confined cfg gw (user_data_trade w1) true w1)
      as [_ _ T _ _].
    split; [reflexivity|]. split; [reflexivity|]. now apply T.
Qed.

End Flow.

(** ** The conversation *)

Lemma with_replies_app (rs1 rs2 : list Reply) (w : World) :
  with_replies rs2 (with_replies rs1 w) = with_replies (rs1 ++ rs2) w.
Proof. unfold with_replies. cbn. now rewrite app_assoc. Qed.

Lemma is_command_exclusive (update : Update) (n1 n2 : string) :
  is_command update n1 = true -> n1 <> n2 -> is_command update n2 = false.
Proof.
  unfold is_command. destruct (command_name update) as [n|]; [|discriminate].
  intros H1 Hne. apply String.eqb_eq in H1. subst n.
  now apply String.eqb_neq.
Qed.

Section Conversation.

Variable cfg : Config.
Variable gw : Gateway.

Lemma welcome_run (update : Update) (s : state) (w : World) :
  (welcome update;; mret s) w = (Ok s, with_replies [WelcomeMessage] w).
Proof. reflexivity. Qed.

Lemma help_run (update : Update) (s : state) (w : World) :
  (help update;; mret s) w
  = (Ok s, with_replies [HelpMessage; CommandList; ExampleTrades] w).
Proof.
  unfold help, mbind, M_bind, reply_text, mret, M_ret, with_replies. cbn.
  now rewrite <- !app_assoc.
Qed.

Lemma unknown_command_run (update : Update) (s : state) (w : World) :
  (unknown_command cfg update;; mret s) w
  = (Ok s, with_replies [if authorized cfg update then UnknownCommand
                         else NotAuthorized] w).
Proof.
  unfold unknown_command, mbind, M_bind.
  now destruct (authorized cfg update).
Qed.

Lemma cancel_run (update : Update) (w : World) :
  cancel update w
  = (Ok END, mkWorld (heap w) None (replies w ++ [Canceled]) (calls w)).
Proof. reflexivity. Qed.

(** X6: a user other than TELEGRAM_USER who is not in a conversation never
    gets into one: whatever such users send, the state stays END, the
    pending slot and the heap stay as they are and the gateway is not
    called; only replies are sent. *)
Theorem unauthorized_users_stay_out (updates : list Update) :
  forall (w : World)
    (Hunauthorized : Forall (fun u => authorized cfg u = false) updates),
  exists rs,
    converse cfg gw END updates w = (Ok END, with_replies rs w).
Proof.
  induction updates as [|update rest IH]; intros w Hall.
  - exists []. cbn. unfold with_replies. rewrite app_nil_r. now destruct w.
  - apply Forall_cons_iff in Hall as [Hu Hrest].
    assert (Hstep : exists rs,
               handle cfg gw END update w = (Ok END, with_replies rs w)).
    { unfold handle.
      destruct (is_command update "start"); [eexists; apply welcome_run|].
      destruct (is_command update "help"); [eexists; apply help_run|].
      unfold conversation, Trade_Command, Calculation_Command.
      rewrite Hu. cbn [negb].
      destruct (is_command update "trade"); [now exists [NotAuthorized]|].
      destruct (is_command update "calculate"); [now exists [NotAuthorized]|].
      eexists. apply unknown_command_run. }
    destruct Hstep as (rs1 & Hstep).
    destruct (IH (with_replies rs1 w) Hrest) as (rs2 & Hrun).
    exists (rs1 ++ rs2)%list.
    cbn [converse]. unfold mbind, M_bind. rewrite Hstep, Hrun.
    now rewrite with_replies_app.
Qed.

(** X7: /cancel ends the conversation from each of its states and empties
    the pending slot; /no does the same while the decision is awaited.  No
    gateway call is made and no dictionary is touched. *)
Theorem cancel_ends_the_conversation (s : state) (update : Update) (w : World)
  (Hstate : s <> END)
  (Hcancel : is_command update "cancel" = true \/
             (s = DECISION /\ is_command update "no" = true)) :
  handle cfg gw s update w
  = (Ok END, mkWorld (heap w) None (replies w ++ [Canceled]) (calls w)).
Proof.
  assert (Hplain : is_plain_text update = false).
  { unfold is_plain_text. unfold is_command in Hcancel.
    destruct (command_name update); [reflexivity|].
    destruct Hcancel as [H|[_ H]]; discriminate. }
  unfold handle.
  destruct Hcancel as [Hc | [-> Hno]].
  - rewrite (is_command_exclusive update "cancel" "start" Hc) by discriminate.
    rewrite (is_command_exclusive update "cancel" "help" Hc) by discriminate.
    unfold conversation. rewrite Hplain, Hc.
    rewrite (is_command_exclusive update "cancel" "yes" Hc) by discriminate.
    rewrite (is_command_exclusive update "cancel" "no" Hc) by discriminate.
    destruct s; try reflexivity. now contradiction Hstate.
  - rewrite (is_command_exclusive update "no" "start" Hno) by discriminate.
    rewrite (is_command_exclusive update "no" "help" Hno) by discriminate.
    unfold conversation. rewrite Hno.
    now rewrite (is_command_exclusive update "no" "yes" Hno) by discriminate.
Qed.

Lemma consistent_with_replies (s : state) (rs : list Reply) (w : World) :
  consistent s w -> consistent s (with_replies rs w).
Proof. destruct s; exact id. Qed.

(** One update keeps the state and the slot in step, and its handler
    returns. *)
Lemma handle_consistent (s : state) (update : Update) (w : World) :
  consistent s w ->
  exists s', fst (handle cfg gw s update w) = Ok s' /\
             consistent s' (snd (handle cfg gw s update w)).
Proof.
  intros Hs. unfold handle.
  destruct (is_command update "start").
  { rewrite welcome_run. eexists. split; [reflexivity|].
    now apply consistent_with_replies. }
  destruct (is_command update "help").
  { rewrite help_run. eexists. split; [reflexivity|].
    now apply consistent_with_replies. }
  assert (Hunknown : exists s',
             fst ((unknown_command cfg update;; mret s) w) = Ok s' /\
             consistent s' (snd ((unknown_command cfg update;; mret s) w))).
  { rewrite unknown_command_run. eexists. split; [reflexivity|].
    now apply consistent_with_replies. }
  assert (Hcancel : exists s',
             fst (cancel update w) = Ok s' /\
             consistent s' (snd (cancel update w))).
  { rewrite cancel_run. now exists END. }
  assert (Hplace : (s = TRADE \/ s = DECISION) -> exists s',
             fst (PlaceTrade cfg gw update w) = Ok s' /\
             consistent s' (snd (PlaceTrade cfg gw update w))).
  { intros Hcase. rewrite PlaceTrade_run, parse_if_needed_run.
    destruct (user_data_trade w) as [l|] eqn:Hslot.
    - now exists END.
    - destruct Hcase as [-> | ->].
      2:{ destruct Hs as (l & Hl & _). congruence. }
      destruct (ParseSignal cfg (text update)) as [[t|]|e];
        [now exists END | now exists TRADE | now exists TRADE]. }
  destruct s; cbn [conversation].
  - (* CALCULATE *)
    destruct (is_plain_text update).
    2:{ destruct (is_command update "cancel"); assumption. }
    rewrite CalculateTrade_run, parse_if_needed_run.
    cbn in Hs. rewrite Hs.
    destruct (ParseSignal cfg (text update)) as [[t|]|e];
      [|now exists CALCULATE | now exists CALCULATE].
    exists DECISION. split; [reflexivity|]. cbn [snd].
    set (w1 := mkWorld (heap w ++ [t]) (Some (length (heap w)))
                       (replies w ++ [TradeParsed]) (calls w)).
    destruct (ConnectMetaTrader_confined cfg gw (user_data_trade w1) false w1)
      as [S H _ _ _].
    exists (length (heap w)). unfold with_replies.
    cbn [user_data_trade heap]. split; [exact S|].
    rewrite H. unfold w1. cbn [heap]. rewrite length_app. cbn. lia.
  - (* TRADE *)
    destruct (is_plain_text update); [apply Hplace; now left|].
    destruct (is_command update "cancel"); assumption.
  - (* DECISION *)
    destruct (is_command update "yes"); [apply Hplace; now right|].
    destruct (is_command update "no"); [assumption|].
    destruct (is_command update "cancel"); assumption.
  - (* END *)
    unfold Trade_Command, Calculation_Command.
    destruct (is_command update "trade").
    { destruct (authorized cfg update); cbn [negb];
        [now exists TRADE | now exists END]. }
    destruct (is_command update "calculate").
    { destruct (authorized cfg update); cbn [negb];
        [now exists CALCULATE | now exists END]. }
    assumption.
Qed.

(** X8: throughout a conversation no handler lets an exception out, and
    the state and the pending slot stay in step: the slot holds a
    dictionary of the heap while the decision is awaited and is empty in
    every other state. *)
Theorem conversation_keeps_slot_in_step (updates : list Update) :
  forall (s : state) (w : World) (Hstart : consistent s w),
  exists s',
    fst (converse cfg gw s updates w) = Ok s' /\
    consistent s' (snd (converse cfg gw s updates w)).
Proof.
  induction updates as [|update rest IH]; intros s w Hs.
  - now exists s.
  - destruct (handle_consistent s update w Hs) as (s1 & Hr & Hc).
    cbn [converse]. unfold mbind, M_bind.
    destruct (handle cfg gw s update w) as [r w1]. cbn in Hr, Hc. subst r.
    apply IH, Hc.
Qed.

End Conversation.

(** ** The account guard and the order of the traffic *)

Section Guard.

Variable cfg : Config.
Variable gw : Gateway.

(** X9: unless the variable ALLOWED_MT4_ACCOUNT_NUMBER holds an int literal
    (it is read from the environment variable named 4835673), no run of
    ConnectMetaTrader gets past the account check: it makes set-up calls
    only, asks no price, sends no report, places no order and ends with the
    connection message. *)
Theorem no_allowed_account_no_trade (trade : option loc) (enterTrade : bool)
  (w : World) (e0 : exn)
  (Hallowed : allowed_account_number cfg = Raise e0) :
  exists cs e,
    ConnectMetaTrader cfg gw trade enterTrade w
    = (Ok tt, with_replies [ConnectionIssue e] (with_calls cs w)) /\
    forallb is_setup_call cs = true.
Proof.
  destruct (connect_account_run gw w) as (cs & r & Hrun & Hcs).
  exists cs.
  unfold ConnectMetaTrader, try_except, connect_and_trade.
  unfold mbind at 1. unfold M_bind. rewrite Hrun.
  destruct r as [info|e]; [|now exists e].
  unfold mbind at 1. unfold M_bind, lift. rewrite Hallowed.
  now exists e0.
Qed.

(** X10: when the account that answers is not the allowed one,
    ConnectMetaTrader says so and stops: no price is asked, no report is
    sent, no order is placed and the dictionary is not touched. *)
Theorem other_account_aborts (trade : option loc) (enterTrade : bool)
  (w w1 : World) (info : AccountInformation) (allowed : Z)
  (Hconnect : connect_account gw w = (Ok info, w1))
  (Hallowed : allowed_account_number cfg = Ok allowed)
  (Hother : login info <> allowed) :
  ConnectMetaTrader cfg gw trade enterTrade w
  = (Ok tt, with_replies [UnauthorizedAccount] w1) /\
  heap w1 = heap w /\
  adds_calls is_setup_call w w1.
Proof.
  split.
  - unfold ConnectMetaTrader, try_except, connect_and_trade.
    unfold mbind at 1. unfold M_bind. rewrite Hconnect.
    unfold mbind at 1. unfold M_bind, lift. rewrite Hallowed.
    apply Z.eqb_neq in Hother. rewrite Hother. reflexivity.
  - destruct (connect_account_run gw w) as (cs & r & Hrun & Hcs).
    rewrite Hconnect in Hrun. injection Hrun as _ ->.
    split; [reflexivity|]. now exists cs.
Qed.

(** What GetTradeInformation leaves behind: a report when it returns,
    nothing in the chat when it raises. *)
Lemma GetTradeInformation_reply (l : loc) (t : Trade) (balance : pyfloat)
  (w : World) :
  heap w !! l = Some t ->
  match GetTradeInformation (Some l) balance w with
  | (Ok _, w') => exists table, replies w' = (replies w ++ [TradeInformation table])%list
  | (Raise _, w') => replies w' = replies w
  end.
Proof.
  intros Hl. rewrite (GetTradeInformation_run l t balance w Hl).
  destruct (resolve_multiplier t) as [m|e]; [|reflexivity].
  destruct (pips (StopLoss t) (Entry t) m) as [p|e]; [|reflexivity].
  destruct (position_size balance (RiskFactor t) p) as [ps|e]; [|reflexivity].
  cbv zeta.
  destruct (take_profit_pips (TP t) (Entry t) m) as [tps|e]; [|reflexivity].
  destruct (CreateTable _ _ _ _) as [table|e]; [|reflexivity].
  now exists table.
Qed.

End Guard.

(** ** No order without a report *)

Lemma orders_follow_report_trans (w1 w2 w3 : World) :
  orders_follow_report w1 w2 -> orders_follow_report w2 w3 ->
  orders_follow_report w1 w3.
Proof.
  intros (rs1 & cs1 & R1 & C1 & H1) (rs2 & cs2 & R2 & C2 & H2).
  exists (rs1 ++ rs2)%list, (cs1 ++ cs2)%list.
  rewrite R2, R1, C2, C1, !app_assoc. split; [reflexivity|].
  split; [reflexivity|].
  rewrite !existsb_app. intros H. apply orb_true_iff in H as [H|H].
  - now rewrite (H1 H).
  - rewrite (H2 H). apply orb_true_r.
Qed.

Lemma quiet_follows (w w' : World) :
  after not_an_order w w' -> orders_follow_report w w'.
Proof.
  intros [_ _ _ (rs & R) (cs & C & Hno)].
  exists rs, cs. split; [assumption|]. split; [assumption|].
  intros Hsome. apply existsb_exists in Hsome as (c & Hin & Hc).
  rewrite forallb_forall in Hno. specialize (Hno c Hin).
  unfold not_an_order in Hno. now rewrite Hc in Hno.
Qed.

Lemma reported_follows (w w1 w' : World) (table : RiskReport) :
  after not_an_order w w1 ->
  replies w1 = (replies w ++ [TradeInformation table])%list ->
  after any_call w1 w' ->
  orders_follow_report w w'.
Proof.
  intros [_ _ _ _ (cs1 & C1 & _)] R1 [_ _ _ (rs2 & R2) (cs2 & C2 & _)].
  exists ([TradeInformation table] ++ rs2)%list, (cs1 ++ cs2)%list.
  rewrite R2, R1, C2, C1, !app_assoc. repeat split.
Qed.

Section Reporting.

Context {A B : Type}.

Lemma reporting_quiet (m : M A) : confined not_an_order m -> reporting m.
Proof. intros H w. apply quiet_follows, H. Qed.

Lemma reporting_bind (m : M A) (k : A -> M B) :
  reporting m -> (forall a, reporting (k a)) -> reporting (m ≫= k).
Proof.
  intros Hm Hk w. unfold mbind, M_bind.
  specialize (Hm w). destruct (m w) as [[a|e] w1]; cbn [snd] in *.
  - eapply orders_follow_report_trans; [exact Hm | apply Hk].
  - exact Hm.
Qed.

Lemma reporting_try_except (body : M A) (handler : exn -> M A) :
  reporting body -> (forall e, reporting (handler e)) ->
  reporting (try_except body handler).
Proof.
  intros Hb Hh w. unfold try_except.
  specialize (Hb w). destruct (body w) as [[a|e] w1]; cbn [snd] in *.
  - exact Hb.
  - eapply orders_follow_report_trans; [exact Hb | apply Hh].
Qed.

End Reporting.

Lemma GetTradeInformation_Ok (trade : option loc) (balance : pyfloat)
  (w w' : World) (a : unit) :
  GetTradeInformation trade balance w = (Ok a, w') ->
  exists table, replies w' = (replies w ++ [TradeInformation table])%list.
Proof.
  intros Hrun. destruct trade as [l|].
  2:{ discriminate Hrun. }
  destruct (heap w !! l) as [t|] eqn:Hl.
  - pose proof (GetTradeInformation_reply l t balance w Hl) as H.
    now rewrite Hrun in H.
  - unfold GetTradeInformation, mbind, M_bind, deref in Hrun.
    rewrite Hl in Hrun. discriminate Hrun.
Qed.

Section Orders.

Variable cfg : Config.
Variable gw : Gateway.

Lemma report_then_trade_reporting (trade : option loc) (balance : pyfloat)
  (k : unit -> M unit) :
  (forall a, confined any_call (k a)) ->
  reporting (GetTradeInformation trade balance ≫= k).
Proof.
  intros Hk w. unfold mbind, M_bind.
  pose proof (GetTradeInformation_confined trade balance w) as Hg.
  destruct (GetTradeInformation trade balance w) as [[a|e] w1] eqn:Hrun;
    cbn [snd] in *.
  - destruct (GetTradeInformation_Ok trade balance w w1 a Hrun) as (table & R).
    eapply reported_follows; [|exact R|apply Hk].
    eapply after_weaken; [|exact Hg]. discriminate.
  - apply quiet_follows. eapply after_weaken; [|exact Hg]. discriminate.
Qed.

Lemma connect_and_trade_reporting (trade : option loc) (enterTrade : bool) :
  reporting (connect_and_trade cfg gw trade enterTrade).
Proof.
  unfold connect_and_trade.
  apply reporting_bind.
  { apply reporting_quiet.
    eapply confined_weaken; [|apply connect_account_confined].
    intros c Hc. unfold not_an_order, is_order_call. now rewrite Hc. }
  intros info. apply reporting_bind; [apply reporting_quiet, confined_lift|].
  intros allowed.
  destruct (negb _); [apply reporting_quiet, confined_reply|].
  apply reporting_bind; [apply reporting_quiet, confined_reply|]. intros _.
  apply reporting_bind.
  { apply reporting_quiet.
    eapply confined_weaken; [|apply resolve_entry_confined].
    intros c Hc. unfold not_an_order, is_order_call. rewrite Hc.
    now rewrite andb_false_r. }
  intros _. apply report_then_trade_reporting. intros _.
  destruct enterTrade; [|apply confined_ret].
  apply confined_bind; [apply confined_reply|]. intros _.
  apply confined_try_except.
  - eapply confined_weaken; [|apply enter_trade_confined]. reflexivity.
  - intros e. apply confined_reply.
Qed.

(** X11: in a run of ConnectMetaTrader an order is placed only if the risk
    report was sent in that run: a run that sends no report (the connection
    or the account check failed, the price could not be read, the risk
    calculation raised) places no order. *)
Theorem no_order_without_report (trade : option loc) (enterTrade : bool)
  (w : World) :
  orders_follow_report w (snd (ConnectMetaTrader cfg gw trade enterTrade w)).
Proof.
  unfold ConnectMetaTrader. apply reporting_try_except.
  - apply connect_and_trade_reporting.
  - intros e. apply reporting_quiet, confined_reply.
Qed.


End Orders.

(** ** The report *)

Lemma leg_profits_total (positionSize : pyfloat) (n : nat) (tps : list Z) :
  forall (start : pyfloat) (profits : list pyfloat) (total : pyfloat),
    leg_profits positionSize n tps start = Ok (profits, total) ->
    length profits = length tps /\ total = total_from start profits.
Proof.
  induction tps as [|takeProfit rest IH]; intros start profits total H.
  - injection H as <- <-. now split.
  - cbn [leg_profits] in H.
    apply bind_Ok in H as (profit & Hp & H).
    apply bind_Ok in H as ([profits' total'] & Hrest & H).
    injection H as <- <-.
    destruct (IH _ _ _ Hrest) as [Hlen Htot].
    split; [cbn; now rewrite Hlen|]. exact Htot.
Qed.

(** X13: the table of CreateTable gives one profit per take-profit leg, and
    its total profit is the sum of those profits, added in order from 0;
    the pips it shows are the ones it was given and the position size is
    the one stored in the dictionary. *)
Theorem table_totals (t : Trade) (balance : pyfloat) (stopLossPips : Z)
  (takeProfitPips : list Z) (table : RiskReport)
  (Htable : CreateTable t balance stopLossPips takeProfitPips = Ok table) :
  length (row_TPProfit table) = length takeProfitPips /\
  row_TotalProfit table = total_from (Float.of_Z 0) (row_TPProfit table) /\
  row_StopLoss table = stopLossPips /\
  row_TP table = takeProfitPips /\
  PositionSize t = Some (row_PositionSize table).
Proof.
  unfold CreateTable in Htable.
  apply bind_Ok in Htable as (ps & Hps & H).
  apply bind_Ok in H as ([profits total] & Hlegs & H).
  injection H as <-. cbn.
  destruct (leg_profits_total _ _ _ _ _ _ Hlegs) as [Hlen Htot].
  repeat split; try assumption.
  unfold position_size_of in Hps.
  destruct (PositionSize t) as [x|]; cbn in Hps; [|discriminate].
  now injection Hps as <-.
Qed.



(** ** Numbers that are not finite *)



(** ** A float entry *)

Section FloatEntry.

Variable cfg : Config.
Variable gw : Gateway.

(** X16: once the entry of a dictionary is a float, ConnectMetaTrader asks
    no price for it, whether the float was parsed from a limit or stop
    order or was written over the marker NOW by an earlier run. *)
Theorem float_entry_asks_no_price (l : loc) (t : Trade) (x : pyfloat)
  (enterTrade : bool) (w : World)
  (Hl : heap w !! l = Some t)
  (He : Entry t = VFloat x) :
  adds_calls not_a_price_request w
    (snd (ConnectMetaTrader cfg gw (Some l) enterTrade w)).
Proof.
  assert (Hnow : is_NOW (Entry t) = false) by now rewrite He.
  destruct (connect_account_run gw w) as (cs & r & Hrun & Hcs).
  assert (Hsetup : forallb not_a_price_request cs = true).
  { apply forallb_forall. intros c Hc. rewrite forallb_forall in Hcs.
    specialize (Hcs c Hc). unfold not_a_price_request. now destruct c. }
  assert (Hstop : forall rs,
             adds_calls not_a_price_request w (with_replies rs (with_calls cs w))).
  { intros rs. now exists cs. }
  unfold ConnectMetaTrader, try_except, connect_and_trade.
  unfold mbind at 1. unfold M_bind. rewrite Hrun.
  destruct r as [info|e]; [|apply (Hstop [ConnectionIssue e])].
  unfold mbind at 1. unfold M_bind, lift.
  destruct (allowed_account_number cfg) as [allowed|e];
    [|apply (Hstop [ConnectionIssue e])].
  destruct (negb (login info =? allowed)%Z);
    [apply (Hstop [UnauthorizedAccount])|].
  unfold mbind at 1. unfold M_bind, reply_text.
  unfold mbind at 1. unfold M_bind.
  erewrite resolve_entry_not_NOW; [|exact Hl|exact Hnow].
  set (w2 := mkWorld _ _ _ _).
  set (rest := (GetTradeInformation (Some l) (balance info) ≫= _)).
  assert (Hrest : confined not_a_price_request rest).
  { unfold rest. apply confined_bind.
    - eapply confined_weaken; [|apply GetTradeInformation_confined].
      discriminate.
    - intros _. destruct enterTrade; [|apply confined_ret].
      apply confined_bind; [apply confined_reply|]. intros _.
      apply confined_try_except.
      + eapply confined_weaken; [|apply enter_trade_confined].
        intros c Hc. unfold not_a_price_request.
        unfold is_order_call in Hc. apply andb_true_iff in Hc as [_ Hc].
        exact Hc.
      + intros e. apply confined_reply. }
  destruct (after_adds_calls _ _ _ (Hrest w2)) as (cs2 & C2 & A2).
  assert (Hfinal : forall w3, calls w3 = calls (snd (rest w2)) ->
             adds_calls not_a_price_request w w3).
  { intros w3 Hc. exists (cs ++ cs2)%list. rewrite Hc, C2. unfold w2. cbn.
    rewrite app_assoc. split; [reflexivity|].
    rewrite forallb_app. now rewrite Hsetup, A2. }
  destruct (rest w2) as [[[]|e] w3]; now apply Hfinal.
Qed.

Lemma first_call_bind {A B} (m : M A) (k : A -> M B) (c : Call) :
  (forall w, exists cs, calls (snd (m w)) = (calls w ++ c :: cs)%list) ->
  (forall a, confined any_call (k a)) ->
  forall w, exists cs, calls (snd ((m ≫= k) w)) = (calls w ++ c :: cs)%list.
Proof.
  intros Hm Hk w. unfold mbind, M_bind.
  destruct (Hm w) as (cs & C). destruct (m w) as [[a|e] w1]; cbn [snd] in *.
  - destruct (Hk a w1) as [_ _ _ _ (cs2 & C2 & _)].
    exists (cs ++ cs2)%list. rewrite C2, C. now rewrite <- app_assoc.
  - now exists cs.
Qed.

Lemma first_call_try_except {A} (body : M A) (handler : exn -> M A) (c : Call) :
  (forall w, exists cs, calls (snd (body w)) = (calls w ++ c :: cs)%list) ->
  (forall e, confined any_call (handler e)) ->
  forall w, exists cs,
    calls (snd (try_except body handler w)) = (calls w ++ c :: cs)%list.
Proof.
  intros Hb Hh w. unfold try_except.
  destruct (Hb w) as (cs & C). destruct (body w) as [[a|e] w1]; cbn [snd] in *.
  - now exists cs.
  - destruct (Hh e w1) as [_ _ _ _ (cs2 & C2 & _)].
    exists (cs ++ cs2)%list. rewrite C2, C. now rewrite <- app_assoc.
Qed.

Lemma await_first_call {A} (c : Call) (answer : list Call -> Result A)
  (w : World) :
  exists cs, calls (snd (await c answer w)) = (calls w ++ c :: cs)%list.
Proof. now exists []. Qed.

(** Every run of ConnectMetaTrader starts by asking for the account. *)
Lemma ConnectMetaTrader_first_call (trade : option loc) (enterTrade : bool)
  (w : World) :
  exists cs,
    calls (snd (ConnectMetaTrader cfg gw trade enterTrade w))
    = (calls w ++ get_account :: cs)%list.
Proof.
  revert w. unfold ConnectMetaTrader.
  apply first_call_try_except; [|intros e; apply confined_reply].
  unfold connect_and_trade. apply first_call_bind.
  - unfold connect_account. apply first_call_bind.
    + intros w. apply await_first_call.
    + intros st. eapply confined_weaken with (allowed := is_setup_call);
        [reflexivity|].
      confine. destruct (negb _); confine.
  - intros info. apply confined_bind; [apply confined_lift|]. intros allowed.
    destruct (negb _); [apply confined_reply|].
    apply confined_bind; [apply confined_reply|]. intros _.
    apply confined_bind.
    { eapply confined_weaken; [|apply resolve_entry_confined]. reflexivity. }
    intros _. apply confined_bind.
    { eapply confined_weaken; [|apply GetTradeInformation_confined].
      reflexivity. }
    intros _. destruct enterTrade; [|apply confined_ret].
    apply confined_bind; [apply confined_reply|]. intros _.
    apply confined_try_except.
    + eapply confined_weaken; [|apply enter_trade_confined]. reflexivity.
    + intros e. apply confined_reply.
Qed.

(** X17: while a trade is pending, PlaceTrade does not read the message:
    it runs on the pending dictionary, ends the conversation and empties the
    slot, and its first gateway call asks for the account anew. *)
Theorem pending_trade_is_reused (u1 u2 : Update) (l : loc) (w : World)
  (Hslot : user_data_trade w = Some l) :
  PlaceTrade cfg gw u1 w = PlaceTrade cfg gw u2 w /\
  fst (PlaceTrade cfg gw u1 w) = Ok END /\
  user_data_trade (snd (PlaceTrade cfg gw u1 w)) = None /\
  exists cs, calls (snd (PlaceTrade cfg gw u1 w))
             = (calls w ++ get_account :: cs)%list.
Proof.
  rewrite !PlaceTrade_run, !parse_if_needed_run, Hslot. cbv zeta.
  split; [reflexivity|]. split; [reflexivity|]. split; [reflexivity|].
  cbn [snd calls]. apply ConnectMetaTrader_first_call.
Qed.

End FloatEntry.

(** ** What the parser reads of a signal *)

Lemma is_space_lower_char (c : ascii) :
  Str.is_space (Str.lower_char c) = Str.is_space c.
Proof. destruct c as [[] [] [] [] [] [] [] []]; reflexivity. Qed.

Lemma upper_lower_char (c : ascii) :
  Str.upper_char (Str.lower_char c) = Str.upper_char c.
Proof. destruct c as [[] [] [] [] [] [] [] []]; reflexivity. Qed.

Lemma lower_lower_char (c : ascii) :
  Str.lower_char (Str.lower_char c) = Str.lower_char c.
Proof. destruct c as [[] [] [] [] [] [] [] []]; reflexivity. Qed.

Lemma upper_lower (s : string) : Str.upper (Str.lower s) = Str.upper s.
Proof.
  induction s as [|c s IH]; [reflexivity|].
  cbn. now rewrite upper_lower_char, IH.
Qed.

Lemma lower_lower (s : string) : Str.lower (Str.lower s) = Str.lower s.
Proof.
  induction s as [|c s IH]; [reflexivity|].
  cbn. now rewrite lower_lower_char, IH.
Qed.

Lemma lower_string_of_list (l : list ascii) :
  Str.lower (string_of_list_ascii l)
  = string_of_list_ascii (map Str.lower_char l).
Proof. induction l as [|c l IH]; [reflexivity|]. cbn. now rewrite IH. Qed.

Lemma of_rev_lower (acc : list ascii) :
  Str.of_rev (map Str.lower_char acc) = Str.lower (Str.of_rev acc).
Proof.
  unfold Str.of_rev. now rewrite lower_string_of_list, map_rev.
Qed.

Lemma split_from_lower (s : string) :
  forall acc,
    Str.split_from (map Str.lower_char acc) (Str.lower s)
    = map Str.lower (Str.split_from acc s).
Proof.
  induction s as [|c s IH]; intros acc.
  - destruct acc as [|a acc]; [reflexivity|].
    cbn [Str.lower Str.split_from map]. now rewrite <- of_rev_lower.
  - cbn [Str.lower Str.split_from]. rewrite is_space_lower_char.
    destruct (Str.is_space c).
    + destruct acc as [|a acc]; cbn [map].
      * apply (IH []).
      * pose proof (IH []) as H. cbn [map] in H. rewrite H.
        now rewrite <- of_rev_lower.
    + apply (IH (c :: acc)).
Qed.

Lemma last_map {A B} (f : A -> B) (l : list A) :
  last (map f l) = option_map f (last l).
Proof.
  induction l as [|a l IH]; [reflexivity|].
  destruct l as [|b l]; [reflexivity|]. exact IH.
Qed.

Lemma last_token_lower (line : string) :
  Str.last_token (Str.lower line) = Str.lower <$> Str.last_token line.
Proof.
  unfold Str.last_token, Str.last_item, Str.split.
  pose proof (split_from_lower line []) as H. cbn [map] in H.
  rewrite H, last_map.
  now destruct (last (Str.split_from [] line)).
Qed.

Lemma symbol_of_lower (l1 l2 : string) :
  Str.lower l1 = Str.lower l2 ->
  Str.upper <$> Str.last_token l1 = Str.upper <$> Str.last_token l2.
Proof.
  intros E.
  assert (H : Str.lower <$> Str.last_token l1 = Str.lower <$> Str.last_token l2).
  { now rewrite <- !last_token_lower, E. }
  destruct (Str.last_token l1) as [t1|e1], (Str.last_token l2) as [t2|e2];
    cbn in *; try congruence.
  injection H as H. f_equal.
  now rewrite <- (upper_lower t1), H, upper_lower.
Qed.

Lemma classify_lower (l1 l2 : string) :
  Str.lower l1 = Str.lower l2 -> classify l1 = classify l2.
Proof. intros E. unfold classify, mentions. now rewrite E. Qed.

(** The parser through the tokens it reads. *)
Lemma ParseSignal_tokens (cfg : Config) (signal line0 : string)
  (rest : list string) :
  signal_lines signal = line0 :: rest ->
  ParseSignal cfg signal
  = parse_tokens cfg (classify line0) (Str.upper <$> Str.last_token line0)
      (map Str.last_token (take 4 rest)).
Proof.
  intros Hlines. unfold ParseSignal, parse_tokens. rewrite Hlines.
  change (Str.item (line0 :: rest) 0 ≫= ?k) with (k line0). cbv beta.
  destruct (classify line0) as [ot|]; [|reflexivity].
  destruct (Str.last_token line0) as [tok|e]; [|reflexivity].
  change (Ok tok ≫= ?k) with (k tok).
  change ((Str.upper <$> Ok tok) ≫= ?k) with (k (Str.upper tok)). cbv beta.
  destruct (negb (Str.mem (Str.upper tok) SYMBOLS)); [reflexivity|].
  destruct rest as [|a [|b [|c [|d rest']]]]; reflexivity.
Qed.

(** X18: the parser reads line 0 without regard to letter case, and of the
    next four lines only the last token of each: the labels Entry, SL and
    TP are not looked at.  Two signals that agree on these parse alike. *)
Theorem only_case_folded_line0_and_last_tokens_matter (cfg : Config)
  (s1 s2 l1 l2 : string) (rest1 rest2 : list string)
  (H1 : signal_lines s1 = l1 :: rest1)
  (H2 : signal_lines s2 = l2 :: rest2)
  (Hline0 : Str.lower l1 = Str.lower l2)
  (Htokens : map Str.last_token (take 4 rest1)
             = map Str.last_token (take 4 rest2)) :
  ParseSignal cfg s1 = ParseSignal cfg s2.
Proof.
  rewrite (ParseSignal_tokens cfg s1 l1 rest1 H1).
  rewrite (ParseSignal_tokens cfg s2 l2 rest2 H2).
  now rewrite (classify_lower l1 l2 Hline0), (symbol_of_lower l1 l2 Hline0),
    Htokens.
Qed.

(** ** Scenarios of the further properties *)

Lemma accepted_signal_shape_witness :
  ParseSignal config_2pct market_signal = Ok (Some market_trade) /\
  length (TP market_trade) = 2%nat.
Proof.
  assert (H : ParseSignal config_2pct market_signal = Ok (Some market_trade))
    by (vm_compute; reflexivity).
  split; [exact H|].
  destruct (accepted_signal_shape config_2pct market_signal market_trade H)
    as (_ & Hlen & _).
  exact Hlen.
Defined.

Lemma lines_after_the_fifth_are_ignored_witness :
  first_five long_market_signal = first_five market_signal /\
  ParseSignal config_2pct long_market_signal
  = ParseSignal config_2pct market_signal.
Proof.
  assert (H : first_five long_market_signal = first_five market_signal)
    by (vm_compute; reflexivity).
  split; [exact H|].
  apply (lines_after_the_fifth_are_ignored config_2pct _ _ H).
Defined.

Lemma accepted_signal_outcomes_witness :
  user_data_trade empty_world = None /\
  ParseSignal config_2pct (text (from_trader market_signal))
  = Ok (Some market_trade) /\
  fst (CalculateTrade config_2pct gateway_first_order_fails
         (from_trader market_signal) empty_world) = Ok DECISION.
Proof.
  assert (H : ParseSignal config_2pct (text (from_trader market_signal))
              = Ok (Some market_trade)) by (vm_compute; reflexivity).
  split; [reflexivity|]. split; [exact H|].
  destruct (accepted_signal_outcomes config_2pct gateway_first_order_fails
              (from_trader market_signal) market_trade empty_world eq_refl H)
    as [(Hc & _) _].
  exact Hc.
Defined.

Lemma unauthorized_users_stay_out_witness :
  Forall (fun u => authorized config_2pct u = false)
         [from_stranger "/trade"; from_stranger market_signal] /\
  exists rs,
    converse config_2pct gateway_moving END
      [from_stranger "/trade"; from_stranger market_signal] empty_world
    = (Ok END, with_replies rs empty_world).
Proof.
  assert (H : Forall (fun u => authorized config_2pct u = false)
                [from_stranger "/trade"; from_stranger market_signal]).
  { repeat constructor. }
  split; [exact H|].
  apply (unauthorized_users_stay_out config_2pct gateway_moving _ empty_world H).
Defined.

Lemma cancel_ends_the_conversation_witness :
  is_command (from_trader "/no") "no" = true /\
  handle config_2pct gateway_moving DECISION (from_trader "/no")
    (world_of sized_market_trade)
  = (Ok END, mkWorld [sized_market_trade] None [Canceled] []).
Proof.
  assert (H : is_command (from_trader "/no") "no" = true)
    by (vm_compute; reflexivity).
  split; [exact H|].
  apply (cancel_ends_the_conversation config_2pct gateway_moving DECISION
           (from_trader "/no") (world_of sized_market_trade)).
  - discriminate.
  - right. split; [reflexivity | exact H].
Defined.

Lemma conversation_keeps_slot_in_step_witness :
  consistent END empty_world /\
  exists s',
    fst (converse config_2pct gateway_moving END
           [from_trader "/calculate"; from_trader market_signal] empty_world)
    = Ok s'.
Proof.
  assert (H : consistent END empty_world) by reflexivity.
  split; [exact H|].
  destruct (conversation_keeps_slot_in_step config_2pct gateway_moving
              [from_trader "/calculate"; from_trader market_signal]
              END empty_world H) as (s' & Hs & _).
  exists s'. exact Hs.
Defined.

Lemma no_allowed_account_no_trade_witness :
  allowed_account_number config_without_account = Raise TypeError /\
  exists cs e,
    ConnectMetaTrader config_without_account gateway_moving (Some 0%nat) true
      (world_of limit_trade)
    = (Ok tt, with_replies [ConnectionIssue e]
                (with_calls cs (world_of limit_trade))) /\
    forallb is_setup_call cs = true.
Proof.
  assert (H : allowed_account_number config_without_account = Raise TypeError)
    by reflexivity.
  split; [exact H|].
  apply (no_allowed_account_no_trade config_without_account gateway_moving
           (Some 0%nat) true (world_of limit_trade) TypeError H).
Defined.

Lemma other_account_aborts_witness :
  connect_account gateway_moving (world_of limit_trade)
  = (Ok (mkInfo 4835673 (Finite 10000)), connected_world) /\
  allowed_account_number config_other_account = Ok 1111%Z /\
  ConnectMetaTrader config_other_account gateway_moving (Some 0%nat) true
    (world_of limit_trade)
  = (Ok tt, with_replies [UnauthorizedAccount] connected_world).
Proof.
  assert (Hc : connect_account gateway_moving (world_of limit_trade)
               = (Ok (mkInfo 4835673 (Finite 10000)), connected_world))
    by (vm_compute; reflexivity).
  assert (Ha : allowed_account_number config_other_account = Ok 1111%Z)
    by (vm_compute; reflexivity).
  split; [exact Hc|]. split; [exact Ha|].
  apply (other_account_aborts config_other_account gateway_moving
           (Some 0%nat) true (world_of limit_trade) connected_world
           (mkInfo 4835673 (Finite 10000)) 1111%Z Hc Ha).
  discriminate.
Defined.


Lemma table_totals_witness :
  exists table,
    CreateTable sized_market_trade (Finite 10000) 1066 [393%Z; 484%Z]
    = Ok table /\
    row_TotalProfit table = total_from (Float.of_Z 0) (row_TPProfit table).
Proof.
  eexists. split; [vm_compute; reflexivity|].
  eapply (table_totals sized_market_trade (Finite 10000) 1066 [393%Z; 484%Z]).
  vm_compute; reflexivity.
Defined.



Lemma float_entry_asks_no_price_witness :
  Entry sized_market_trade = VFloat (Finite (5 # 4)) /\
  adds_calls not_a_price_request (world_of sized_market_trade)
    (snd (ConnectMetaTrader config_2pct gateway_moving (Some 0%nat) true
            (world_of sized_market_trade))).
Proof.
  split; [reflexivity|].
  apply (float_entry_asks_no_price config_2pct gateway_moving 0%nat
           sized_market_trade (Finite (5 # 4)) true
           (world_of sized_market_trade) eq_refl eq_refl).
Defined.

Lemma pending_trade_is_reused_witness :
  user_data_trade (world_of sized_market_trade) = Some 0%nat /\
  PlaceTrade config_2pct gateway_moving (from_trader "/yes")
    (world_of sized_market_trade)
  = PlaceTrade config_2pct gateway_moving (from_trader limit_signal)
      (world_of sized_market_trade).
Proof.
  split; [reflexivity|].
  apply (pending_trade_is_reused config_2pct gateway_moving
           (from_trader "/yes") (from_trader limit_signal) 0%nat
           (world_of sized_market_trade) eq_refl).
Defined.

Lemma only_case_folded_line0_and_last_tokens_matter_witness :
  signal_lines relabelled_market_signal
  = ["buy gbpusd"; "NOW"; "stop 1.14336"; "1.28930"; "target 1.29845"] /\
  ParseSignal config_2pct relabelled_market_signal
  = ParseSignal config_2pct market_signal.
Proof.
  assert (H1 : signal_lines relabelled_market_signal
               = ["buy gbpusd"; "NOW"; "stop 1.14336"; "1.28930";
                  "target 1.29845"]) by (vm_compute; reflexivity).
  split; [exact H1|].
  apply (only_case_folded_line0_and_last_tokens_matter config_2pct
           relabelled_market_signal market_signal
           "buy gbpusd" "BUY GBPUSD"
           ["NOW"; "stop 1.14336"; "1.28930"; "target 1.29845"]
           ["Entry NOW"; "SL 1.14336"; "TP 1.28930"; "TP 1.29845"] H1);
    vm_compute; reflexivity.
Defined.
